(** * BuildingsPy [simulate] package: a shallow embedding and its properties

    The three modules [base_simulator.py], [Dymola.py] and [Optimica.py] are
    sequential scripts around the file system, a reporter and an external
    process.  They are embedded here as functions of an exception-and-state
    monad over one record holding the simulator object and the part of the
    operating system the code touches.

    Python 3 on a POSIX host is assumed throughout ([os.sep] is ["/"],
    [IOError] is an alias of [OSError]). *)

From Stdlib Require Import Ascii Floats DecimalString.
From stdpp Require Import gmap strings list fin_maps.

#[local] Set Warnings "-inexact-float".

Local Open Scope string_scope.
Local Open Scope Z_scope.

(** ** Python strings *)

Module Str.

Definition eqb (a b : string) : bool := bool_decide (a = b).

Fixpoint startswith (p s : string) : bool :=
  match p, s with
  | EmptyString, _ => true
  | String a p', String b s' => Ascii.eqb a b && startswith p' s'
  | String _ _, EmptyString => false
  end.

Fixpoint drop (n : nat) (s : string) : string :=
  match n, s with
  | O, _ => s
  | S n', String _ s' => drop n' s'
  | S _, EmptyString => EmptyString
  end.

Definition endswith (p s : string) : bool :=
  (String.length p <=? String.length s)%nat
  && eqb (drop (String.length s - String.length p) s) p.

(** [s.split(c)] for a one-character separator: never the empty list. *)
Fixpoint split (c : ascii) (s : string) : list string :=
  match s with
  | EmptyString => [EmptyString]
  | String a s' =>
      if Ascii.eqb a c then EmptyString :: split c s'
      else match split c s' with
           | h :: t => String a h :: t
           | [] => [String a EmptyString]
           end
  end.

(** [sep.join(l)] *)
Fixpoint join (sep : string) (l : list string) : string :=
  match l with
  | [] => ""
  | [x] => x
  | x :: l' => x +:+ sep +:+ join sep l'
  end.

(** [s.find(sub)]: the least index at which [sub] occurs, or [-1]. *)
Fixpoint find_from (i : Z) (sub s : string) : Z :=
  if startswith sub s then i
  else match s with
       | EmptyString => -1
       | String _ s' => find_from (i + 1) sub s'
       end.

Definition find (sub s : string) : Z := find_from 0 sub s.

(** [s.rstrip(c)] for a one-character set. *)
Fixpoint rstrip (c : ascii) (s : string) : string :=
  match s with
  | EmptyString => EmptyString
  | String a s' =>
      let r := rstrip c s' in
      if Ascii.eqb a c && eqb r "" then EmptyString else String a r
  end.

(** [s.replace(old, new)]: the occurrences of [old] are found from the left
    and do not overlap.  [skip] counts the characters of an occurrence
    still to be passed over. *)
Fixpoint replace_go (old new : string) (skip : nat) (s : string) : string :=
  match s with
  | EmptyString => EmptyString
  | String a s' =>
      match skip with
      | S k => replace_go old new k s'
      | O =>
          if startswith old s
          then new +:+ replace_go old new (String.length old - 1) s'
          else String a (replace_go old new O s')
      end
  end.

(** With an empty [old], Python puts [new] before every character and at
    the end. *)
Fixpoint intersperse (new s : string) : string :=
  match s with
  | EmptyString => new
  | String a s' => new +:+ String a (intersperse new s')
  end.

Definition replace (old new s : string) : string :=
  match old with
  | EmptyString => intersperse new s
  | String _ _ => replace_go old new O s
  end.

(** [sub in s] *)
Fixpoint contains (sub s : string) : bool :=
  startswith sub s
  || match s with
     | EmptyString => false
     | String _ s' => contains sub s'
     end.

Definition of_Z (z : Z) : string := NilZero.string_of_int (Z.to_int z).

End Str.

(** ** Python values, exceptions and the state *)

(** The values stored in the settings dictionary [_simulator_]. *)
Inductive pyval :=
| PyNone
| PyBool (b : bool)
| PyInt (z : Z)
| PyFloat (f : float)
| PyStr (s : string).

(** The exception classes the code raises or catches.  [IOError] is
    [OSError]; the four file-system errors are subclasses of [OSError]; all
    but [KeyboardInterrupt] and [SystemExit] derive from [Exception]. *)
Inductive exn_class :=
| KeyboardInterrupt | SystemExit
| TypeError | ValueError | AttributeError | IndexError | KeyError
| DeprecationWarning | RuntimeError | TimeoutError
| OSError | FileExistsError | FileNotFoundError
| NotADirectoryError | IsADirectoryError.

#[global] Instance exn_class_eq_dec : EqDecision exn_class.
Proof. solve_decision. Defined.

Record exn := Exn { exn_cls : exn_class; exn_msg : string }.

Definition is_Exception (e : exn) : bool :=
  match exn_cls e with
  | KeyboardInterrupt | SystemExit => false
  | _ => true
  end.

Definition is_OSError (e : exn) : bool :=
  match exn_cls e with
  | OSError | FileExistsError | FileNotFoundError
  | NotADirectoryError | IsADirectoryError | TimeoutError => true
  | _ => false
  end.

Definition IOError : exn_class := OSError.

(** The simulator object.  An attribute that [_BaseSimulator.__init__] does
    not assign is an [option] whose [None] stands for the attribute being
    absent, so that reading it raises [AttributeError]; [_packagePath],
    [_simulateDir_] and [_MODELICA_EXE] are assigned and may hold Python's
    [None]. *)
Record obj := Obj {
  modelName : string;
  _packagePath : option string;
  _simulator_ : gmap string pyval;
  _outputDir_ : string;
  _simulateDir_ : option string;
  _MODELICA_EXE : option string;
  _preProcessing_ : option (list string);
  _postProcessing_ : option (list string);
  _modelModifiers_ : option (list string);
  _exitSimulator : option bool;
  _showGUI : option bool;
  _showProgressBar : option bool
}.

Inductive node := Dir | File (content : string).

(** The object together with what the code reaches of the operating system:
    the file tree keyed by absolute normalised path, the directories without
    write permission, the current directory, the directory of temporary
    files, the user, the names [tempfile] will draw, the environment, the
    messages given to the reporter and the lines printed. *)
Record state := State {
  this : obj;
  fs : gmap string node;
  readonly : gset string;
  cwd : string;
  tempdir : string;
  user : string;
  names : list string;
  environ : gmap string string;
  putenv : gmap string string;
  errors : list string;
  stdout : list string
}.

Definition with_this (o : obj) (s : state) : state :=
  State o (fs s) (readonly s) (cwd s) (tempdir s) (user s) (names s)
        (environ s) (putenv s) (errors s) (stdout s).
Definition with_fs (f : gmap string node) (s : state) : state :=
  State (this s) f (readonly s) (cwd s) (tempdir s) (user s) (names s)
        (environ s) (putenv s) (errors s) (stdout s).
Definition with_names (l : list string) (s : state) : state :=
  State (this s) (fs s) (readonly s) (cwd s) (tempdir s) (user s) l
        (environ s) (putenv s) (errors s) (stdout s).
Definition with_putenv (e : gmap string string) (s : state) : state :=
  State (this s) (fs s) (readonly s) (cwd s) (tempdir s) (user s) (names s)
        (environ s) e (errors s) (stdout s).
Definition with_errors (l : list string) (s : state) : state :=
  State (this s) (fs s) (readonly s) (cwd s) (tempdir s) (user s) (names s)
        (environ s) (putenv s) l (stdout s).
Definition with_stdout (l : list string) (s : state) : state :=
  State (this s) (fs s) (readonly s) (cwd s) (tempdir s) (user s) (names s)
        (environ s) (putenv s) (errors s) l.

(** ** The monad of Python statements

    A statement maps the state to a result, a value or a raised exception,
    and the state it leaves; what was done before a raise stays done. *)

Inductive result (A : Type) :=
| Ok (a : A)
| Raise (e : exn).
Arguments Ok {A} a.
Arguments Raise {A} e.

Definition M (A : Type) : Type := state -> result A * state.

Definition ret {A} (a : A) : M A := fun s => (Ok a, s).
Definition raise {A} (c : exn_class) (msg : string) : M A :=
  fun s => (Raise (Exn c msg), s).
Definition bind {A B} (m : M A) (k : A -> M B) : M B :=
  fun s => match m s with
           | (Ok a, s') => k a s'
           | (Raise e, s') => (Raise e, s')
           end.
Definition get : M state := fun s => (Ok s, s).
Definition gets {A} (f : state -> A) : M A := fun s => (Ok (f s), s).
Definition modify (f : state -> state) : M unit := fun s => (Ok tt, f s).

(** [try: body except C as e: handler]: [catches] tells the exceptions of
    class [C]. *)
Definition try_except {A} (body : M A) (catches : exn -> bool)
    (handler : exn -> M A) : M A :=
  fun s => match body s with
           | (Ok a, s') => (Ok a, s')
           | (Raise e, s') =>
               if catches e then handler e s' else (Raise e, s')
           end.

Declare Scope py_scope.
Delimit Scope py_scope with py.
Notation "x <- m ;; k" := (bind m (fun x => k))
  (at level 100, m at next level, right associativity) : py_scope.
Notation "m ;; k" := (bind m (fun _ => k))
  (at level 100, right associativity) : py_scope.
Local Open Scope py_scope.

(** [for x in l: body] *)
Fixpoint for_each {A} (l : list A) (body : A -> M unit) : M unit :=
  match l with
  | [] => ret tt
  | x :: l' => body x ;; for_each l' body
  end.

(** Reading an attribute that may be absent. *)
Definition getattr {A} (name : string) (f : obj -> option A) : M A :=
  o <- gets this ;;
  match f o with
  | Some a => ret a
  | None => raise AttributeError
              ("'" +:+ "object has no attribute '" +:+ name +:+ "'")
  end.

(** [d.get(k)] and [d.update(k=v)] on the settings. *)
Definition dict_get (d : gmap string pyval) (k : string) : pyval :=
  default PyNone (d !! k).

Definition update_simulator (k : string) (v : pyval) : M unit :=
  modify (fun s =>
    let o := this s in
    with_this (Obj (modelName o) (_packagePath o) (<[k := v]> (_simulator_ o))
                   (_outputDir_ o) (_simulateDir_ o) (_MODELICA_EXE o)
                   (_preProcessing_ o) (_postProcessing_ o)
                   (_modelModifiers_ o) (_exitSimulator o) (_showGUI o)
                   (_showProgressBar o)) s).

(** Assignments to the attributes of [self]. *)
Definition set_obj (f : obj -> obj) : M unit :=
  modify (fun s => with_this (f (this s)) s).

Definition set_modelName (v : string) (o : obj) : obj :=
  Obj v (_packagePath o) (_simulator_ o) (_outputDir_ o) (_simulateDir_ o)
      (_MODELICA_EXE o) (_preProcessing_ o) (_postProcessing_ o)
      (_modelModifiers_ o) (_exitSimulator o) (_showGUI o)
      (_showProgressBar o).
Definition set__packagePath (v : option string) (o : obj) : obj :=
  Obj (modelName o) v (_simulator_ o) (_outputDir_ o) (_simulateDir_ o)
      (_MODELICA_EXE o) (_preProcessing_ o) (_postProcessing_ o)
      (_modelModifiers_ o) (_exitSimulator o) (_showGUI o)
      (_showProgressBar o).
Definition set__simulator_ (v : gmap string pyval) (o : obj) : obj :=
  Obj (modelName o) (_packagePath o) v (_outputDir_ o) (_simulateDir_ o)
      (_MODELICA_EXE o) (_preProcessing_ o) (_postProcessing_ o)
      (_modelModifiers_ o) (_exitSimulator o) (_showGUI o)
      (_showProgressBar o).
Definition set__outputDir_ (v : string) (o : obj) : obj :=
  Obj (modelName o) (_packagePath o) (_simulator_ o) v (_simulateDir_ o)
      (_MODELICA_EXE o) (_preProcessing_ o) (_postProcessing_ o)
      (_modelModifiers_ o) (_exitSimulator o) (_showGUI o)
      (_showProgressBar o).
Definition set__simulateDir_ (v : option string) (o : obj) : obj :=
  Obj (modelName o) (_packagePath o) (_simulator_ o) (_outputDir_ o) v
      (_MODELICA_EXE o) (_preProcessing_ o) (_postProcessing_ o)
      (_modelModifiers_ o) (_exitSimulator o) (_showGUI o)
      (_showProgressBar o).
Definition set__MODELICA_EXE (v : option string) (o : obj) : obj :=
  Obj (modelName o) (_packagePath o) (_simulator_ o) (_outputDir_ o)
      (_simulateDir_ o) v (_preProcessing_ o) (_postProcessing_ o)
      (_modelModifiers_ o) (_exitSimulator o) (_showGUI o)
      (_showProgressBar o).
Definition set__preProcessing_ (v : list string) (o : obj) : obj :=
  Obj (modelName o) (_packagePath o) (_simulator_ o) (_outputDir_ o)
      (_simulateDir_ o) (_MODELICA_EXE o) (Some v) (_postProcessing_ o)
      (_modelModifiers_ o) (_exitSimulator o) (_showGUI o)
      (_showProgressBar o).
Definition set__postProcessing_ (v : list string) (o : obj) : obj :=
  Obj (modelName o) (_packagePath o) (_simulator_ o) (_outputDir_ o)
      (_simulateDir_ o) (_MODELICA_EXE o) (_preProcessing_ o) (Some v)
      (_modelModifiers_ o) (_exitSimulator o) (_showGUI o)
      (_showProgressBar o).
Definition set__modelModifiers_ (v : list string) (o : obj) : obj :=
  Obj (modelName o) (_packagePath o) (_simulator_ o) (_outputDir_ o)
      (_simulateDir_ o) (_MODELICA_EXE o) (_preProcessing_ o)
      (_postProcessing_ o) (Some v) (_exitSimulator o) (_showGUI o)
      (_showProgressBar o).
Definition set__exitSimulator (v : bool) (o : obj) : obj :=
  Obj (modelName o) (_packagePath o) (_simulator_ o) (_outputDir_ o)
      (_simulateDir_ o) (_MODELICA_EXE o) (_preProcessing_ o)
      (_postProcessing_ o) (_modelModifiers_ o) (Some v) (_showGUI o)
      (_showProgressBar o).
Definition set__showGUI (v : bool) (o : obj) : obj :=
  Obj (modelName o) (_packagePath o) (_simulator_ o) (_outputDir_ o)
      (_simulateDir_ o) (_MODELICA_EXE o) (_preProcessing_ o)
      (_postProcessing_ o) (_modelModifiers_ o) (_exitSimulator o) (Some v)
      (_showProgressBar o).
Definition set__showProgressBar (v : bool) (o : obj) : obj :=
  Obj (modelName o) (_packagePath o) (_simulator_ o) (_outputDir_ o)
      (_simulateDir_ o) (_MODELICA_EXE o) (_preProcessing_ o)
      (_postProcessing_ o) (_modelModifiers_ o) (_exitSimulator o)
      (_showGUI o) (Some v).

(** ** [os.path] on POSIX *)

Module posixpath.

Definition isabs (p : string) : bool := Str.startswith "/" p.

(** [os.path.join(a, b)] *)
Definition join (a b : string) : string :=
  if Str.startswith "/" b then b
  else if Str.eqb a "" || Str.endswith "/" a then a +:+ b
  else a +:+ "/" +:+ b.

(** The cut after the last ["/"]: [(p[:i], p[i:])] with
    [i = p.rfind("/") + 1]. *)
Fixpoint cut_last (p : string) : string * string :=
  match p with
  | EmptyString => (EmptyString, EmptyString)
  | String a p' =>
      let '(h, t) := cut_last p' in
      if Str.eqb h "" then
        if Ascii.eqb a "/" then ("/", t) else ("", String a t)
      else (String a h, t)
  end.

(** [os.path.split(p)]: the head loses its trailing slashes unless it
    consists of slashes only. *)
Definition split (p : string) : string * string :=
  let '(head, tail) := cut_last p in
  let stripped := Str.rstrip "/" head in
  (if Str.eqb stripped "" then head else stripped, tail).

Fixpoint slashes (n : nat) : string :=
  match n with
  | O => ""
  | S n' => String "/" (slashes n')
  end.

Definition norm_step (initial_slashes : nat) (new_comps : list string)
    (comp : string) : list string :=
  if Str.eqb comp "" || Str.eqb comp "." then new_comps
  else if negb (Str.eqb comp "..")
          || (Nat.eqb initial_slashes 0
              && Nat.eqb (length new_comps) 0)
          || bool_decide (last new_comps = Some "..")
  then new_comps ++ [comp]
  else removelast new_comps.

(** [os.path.normpath(path)] *)
Definition normpath (path : string) : string :=
  if Str.eqb path "" then "." else
  let initial_slashes : nat :=
    if Str.startswith "/" path then
      if Str.startswith "//" path && negb (Str.startswith "///" path)
      then 2%nat else 1%nat
    else 0%nat in
  let comps := Str.split "/" path in
  let new_comps := fold_left (norm_step initial_slashes) comps [] in
  let path := slashes initial_slashes +:+ Str.join "/" new_comps in
  if Str.eqb path "" then "." else path.

(** [os.path.abspath(path)] in the current directory [cwd]. *)
Definition abspath (cwd path : string) : string :=
  normpath (if isabs path then path else join cwd path).

End posixpath.

(** ** The file system: [os], [shutil], [tempfile], [open] *)

Module FS.

(** The key of a path: the file tree is looked up at [abspath]. *)
Definition key (s : state) (p : string) : string :=
  posixpath.abspath (cwd s) p.

Definition parent (k : string) : string := fst (posixpath.split k).

(** [k] is [d] or lies beneath it. *)
Definition under (d k : string) : bool :=
  Str.eqb k d
  || Str.startswith (if Str.eqb d "/" then "/" else d +:+ "/") k.

(** The path of [k] relative to [d], empty for [d] itself. *)
Definition relative (d k : string) : option string :=
  if Str.eqb k d then Some ""
  else if Str.eqb d "/" then
    if Str.startswith "/" k then Some (Str.drop 1 k) else None
  else if Str.startswith (d +:+ "/") k
  then Some (Str.drop (String.length d + 1) k)
  else None.

(** The key and its ancestors, from the root down. *)
Definition ancestors (k : string) : list string :=
  let comps :=
    List.filter (fun c => negb (Str.eqb c "")) (Str.split "/" k) in
  "/" :: snd (fold_left
                (fun (st : string * list string) c =>
                   let nxt := posixpath.join (fst st) c in
                   (nxt, (snd st ++ [nxt])%list))
                comps ("/", [])).

Definition exists_ (p : string) : M bool :=
  gets (fun s => bool_decide (is_Some (fs s !! key s p))).

Definition isdir (p : string) : M bool :=
  gets (fun s => match fs s !! key s p with
                 | Some Dir => true
                 | _ => false
                 end).

(** [os.access(p, os.W_OK)] *)
Definition access_W_OK (p : string) : M bool :=
  gets (fun s => bool_decide (is_Some (fs s !! key s p))
                 && bool_decide (key s p ∉ readonly s)).

(** [os.mkdir(p)] *)
Definition mkdir (p : string) : M unit :=
  s <- get ;;
  let k := key s p in
  match fs s !! k with
  | Some _ => raise FileExistsError ("File exists: '" +:+ p +:+ "'")
  | None =>
      match fs s !! parent k with
      | Some Dir => modify (with_fs (<[k := Dir]> (fs s)))
      | Some (File _) =>
          raise NotADirectoryError ("Not a directory: '" +:+ p +:+ "'")
      | None =>
          raise FileNotFoundError
            ("No such file or directory: '" +:+ p +:+ "'")
      end
  end.

(** [os.makedirs(p)]: the missing ancestors are made as well. *)
Definition makedirs (p : string) : M unit :=
  s <- get ;;
  let k := key s p in
  match fs s !! k with
  | Some _ => raise FileExistsError ("File exists: '" +:+ p +:+ "'")
  | None =>
      if existsb (fun a => match fs s !! a with
                           | Some (File _) => true
                           | _ => false
                           end) (ancestors k)
      then raise NotADirectoryError ("Not a directory: '" +:+ p +:+ "'")
      else modify (with_fs
             (fold_left (fun m a => match m !! a with
                                    | None => <[a := Dir]> m
                                    | Some _ => m
                                    end) (ancestors k) (<[k := Dir]> (fs s))))
  end.

(** [os.remove(p)] *)
Definition remove (p : string) : M unit :=
  s <- get ;;
  let k := key s p in
  match fs s !! k with
  | Some (File _) => modify (with_fs (delete k (fs s)))
  | Some Dir => raise IsADirectoryError ("Is a directory: '" +:+ p +:+ "'")
  | None =>
      raise FileNotFoundError ("No such file or directory: '" +:+ p +:+ "'")
  end.

(** [shutil.rmtree(p)]: the directory and all beneath it. *)
Definition rmtree (p : string) : M unit :=
  s <- get ;;
  let k := key s p in
  match fs s !! k with
  | Some Dir =>
      modify (with_fs (filter (fun kn => under k (fst kn) = false) (fs s)))
  | Some (File _) =>
      raise NotADirectoryError ("Not a directory: '" +:+ p +:+ "'")
  | None =>
      raise FileNotFoundError ("No such file or directory: '" +:+ p +:+ "'")
  end.

(** [fnmatch] for the patterns in use, a literal name or ["*"] followed by
    a literal suffix. *)
Definition fnmatch (name pat : string) : bool :=
  match pat with
  | String "*" suffix => Str.endswith suffix name
  | _ => Str.eqb pat name
  end.

(** A relative path is left out when one of its components matches one of
    the patterns of [shutil.ignore_patterns]. *)
Definition ignored (patterns : list string) (rel : string) : bool :=
  existsb (fun c => existsb (fnmatch c) patterns) (Str.split "/" rel).

(** What [copytree] does with one entry of the file tree: an entry
    beneath the source that no pattern leaves out is put beneath the
    destination. *)
Definition copy_entry (patterns : list string) (ksrc kdst k : string)
    (n : node) (acc : gmap string node) : gmap string node :=
  match relative ksrc k with
  | Some "" => acc
  | Some rel =>
      if ignored patterns rel then acc
      else <[posixpath.join kdst rel := n]> acc
  | None => acc
  end.

(** [shutil.copytree(src, dst, ignore=ignore_patterns(...))]: the
    destination is made, which must not be there, and the entries of the
    source are copied into it. *)
Definition copytree (src dst : string) (patterns : list string) : M unit :=
  s <- get ;;
  let ksrc := key s src in
  match fs s !! ksrc with
  | Some Dir =>
      makedirs dst ;;
      modify (fun s' =>
        with_fs
          (map_fold (copy_entry patterns ksrc (key s' dst)) (fs s') (fs s))
          s')
  | Some (File _) =>
      raise NotADirectoryError ("Not a directory: '" +:+ src +:+ "'")
  | None =>
      raise FileNotFoundError
        ("No such file or directory: '" +:+ src +:+ "'")
  end.

(** [with open(p, mode="w") as fil: fil.write(txt)] *)
Definition write_file (p txt : string) : M unit :=
  s <- get ;;
  let k := key s p in
  match fs s !! k, fs s !! parent k with
  | Some Dir, _ => raise IsADirectoryError ("Is a directory: '" +:+ p +:+ "'")
  | _, Some Dir => modify (with_fs (<[k := File txt]> (fs s)))
  | _, Some (File _) =>
      raise NotADirectoryError ("Not a directory: '" +:+ p +:+ "'")
  | _, None =>
      raise FileNotFoundError ("No such file or directory: '" +:+ p +:+ "'")
  end.

(** [tempfile.mkdtemp(prefix=prefix)]: the candidate names are tried in
    turn, a name already taken is passed over, and the directory made is
    returned; without a usable name [FileExistsError] is raised. *)
Fixpoint mkdtemp_loop (prefix : string) (candidates : list string)
    : M string :=
  match candidates with
  | [] => raise FileExistsError "No usable temporary directory name found"
  | name :: rest =>
      modify (with_names rest) ;;
      dir <- gets tempdir ;;
      let file := posixpath.join dir (prefix +:+ name) in
      try_except (mkdir file ;; ret file)
        (fun e => bool_decide (exn_cls e = FileExistsError))
        (fun _ => mkdtemp_loop prefix rest)
  end.

Definition mkdtemp (prefix : string) : M string :=
  candidates <- gets names ;;
  mkdtemp_loop prefix candidates.

End FS.

(** Modelled from the spec: [buildingspy.io.reporter] is not among the
    sources.  Of [Reporter.writeError] the message it is given is kept,
    added at the end of [errors]. *)
Definition writeError (msg : string) : M unit :=
  modify (fun s => with_errors ((errors s ++ [msg])%list) s).

(** [print(line)] *)
Definition print (line : string) : M unit :=
  modify (fun s => with_stdout ((stdout s ++ [line])%list) s).

(** ** What the three modules call and do not define

    [reporter.Reporter], [outputfile.get_errors_and_warnings] and the
    template [optimica_run.template] belong to modules that are not among
    the sources; [_runSimulation], [deleteOutputFiles], [_declare_parameters],
    [_copyNewFiles], [_copyResultFiles] and, for [Optimica],
    [_check_simulation_errors] are called on [self] or [super()] and defined
    in none of the three classes.  They are parameters of the embedding: a
    property proved here holds whatever they do, in particular when the call
    of an undefined method raises [AttributeError] (see [as_written]). *)

Record template_args := TemplateArgs {
  t_model : string;
  t_ncp : pyval;
  t_rtol : pyval;
  t_solver : pyval;
  t_start_time : pyval;
  t_stop_time : pyval;
  t_result_file : pyval;
  t_simulate : bool;
  t_time_out : pyval;
  t_filter : list string
}.

Record externals := Externals {
  (** [str(x)] of a float [x] *)
  float_repr : float -> string;
  (** [reporter.Reporter(fileName=...)] *)
  Reporter : string -> M unit;
  (** [get_errors_and_warnings(path, tool)["errors"]] *)
  get_errors_and_warnings : string -> string -> M (list string);
  (** [env.get_template("optimica_run.template").render(...)] *)
  render : template_args -> M string;
  (** [super()._runSimulation(cmd, timeout, directory, env=env)] *)
  super__runSimulation :
    list pyval -> pyval -> string -> option (gmap string string) -> M unit;
  (** [super().deleteOutputFiles()] *)
  super_deleteOutputFiles : M unit;
  (** [self._declare_parameters()] *)
  _declare_parameters : M (list string);
  (** [self._copyNewFiles(worDir)] *)
  _copyNewFiles : string -> M unit;
  (** [self._copyResultFiles(worDir)] *)
  _copyResultFiles : string -> M unit;
  (** [self._check_simulation_errors(worDir)] on an [Optimica] object *)
  Optimica__check_simulation_errors : string -> M unit
}.

(** A function that is handed no reference to [self] leaves the object as
    it is. *)
Definition foreign {A} (f : M A) : M A :=
  fun s => let '(r, s') := f s in (r, with_this (this s) s').

Definition dq : string := String (ascii_of_nat 34) EmptyString.
Definition nl : string := String (ascii_of_nat 10) EmptyString.

(** The keyword arguments of a call are bound to the parameters of the
    callee; a keyword that names no parameter is a [TypeError]. *)
Inductive arg :=
| AStr (s : string)
| ANone
| AList (l : list string).

Definition unexpected_keyword (params : list string)
    (kwargs : list (string * arg)) : option string :=
  fst <$> List.find (fun kv => negb (bool_decide (fst kv ∈ params))) kwargs.

Definition kwarg (name : string) (kwargs : list (string * arg))
    : option arg :=
  snd <$> List.find (fun kv => Str.eqb (fst kv) name) kwargs.

Section Classes.

Context (E : externals).

(** [str(v)], which is also what ["{0}".format(v)] substitutes. *)
Definition py_str (v : pyval) : string :=
  match v with
  | PyNone => "None"
  | PyBool true => "True"
  | PyBool false => "False"
  | PyInt z => Str.of_Z z
  | PyFloat f => float_repr E f
  | PyStr s => s
  end.

(** ** [base_simulator.py]: class [_BaseSimulator] *)

Definition setPackagePath (packagePath : string) : M unit :=
  ex <- FS.exists_ packagePath ;;
  if negb ex then
    raise ValueError
      ("Argument packagePath=" +:+ packagePath +:+ " does not exist.")
  else
    isd <- FS.isdir packagePath ;;
    if negb isd then
      raise ValueError
        ("Argument packagePath=" +:+ packagePath
         +:+ " must be a directory " +:+ "containing a Modelica package.")
    else set_obj (set__packagePath (Some packagePath)).

Definition _createDirectory (directoryName : string) : M unit :=
  if negb (Str.eqb directoryName ".") then
    if Nat.eqb (String.length directoryName) 0 then
      raise ValueError
        "Specified directory is not valid. Set to '.' for current directory."
    else
      ex <- FS.exists_ directoryName ;;
      (if negb ex then FS.makedirs directoryName else ret tt) ;;
      w <- FS.access_W_OK directoryName ;;
      if negb w then
        raise ValueError
          ("Write permission to '" +:+ directoryName +:+ "' denied.")
      else ret tt
  else ret tt.

Definition getOutputDirectory : M string := gets (fun s => _outputDir_ (this s)).

Definition setOutputDirectory (outputDirectory : string) : M string :=
  set_obj (set__outputDir_ outputDirectory) ;;
  gets (fun s => _outputDir_ (this s)).

Definition getPackagePath : M (option string) :=
  gets (fun s => _packagePath (this s)).

Definition setStartTime (t0 : pyval) : M unit := update_simulator "t0" t0.
Definition setStopTime (t1 : pyval) : M unit := update_simulator "t1" t1.
Definition setTolerance (eps : pyval) : M unit := update_simulator "eps" eps.
Definition setSolver (solver : pyval) : M unit :=
  update_simulator "solver" solver.
Definition setTimeOut (sec : pyval) : M unit := update_simulator "timeout" sec.

(** [rs = resultFile.split("."); update(resultFile=rs[len(rs) - 1])] *)
Definition setResultFile (resultFile : string) : M unit :=
  let rs := Str.split "." resultFile in
  match rs !! (length rs - 1)%nat with
  | Some r => update_simulator "resultFile" (PyStr r)
  | None => raise IndexError "list index out of range"
  end.

Definition _deleteFiles (fileList : list string) : M unit :=
  for_each fileList (fun fil =>
    try_except
      (ex <- FS.exists_ fil ;; if ex then FS.remove fil else ret tt)
      is_OSError
      (fun e => writeError
                  ("Failed to delete '" +:+ fil +:+ "' : " +:+ exn_msg e))).

(** The two branches of [_deleteTemporaryDirectory] past the test on
    [None]. *)
Definition delete_refused (dirNam : string) : M unit :=
  writeError ("Failed to delete '" +:+ dirNam
              +:+ "' as it does not seem to be a valid directory name.").

Definition delete_tree (worDir dirNam : string) : M unit :=
  try_except
    (ex <- FS.exists_ worDir ;; if ex then FS.rmtree dirNam else ret tt)
    is_OSError
    (fun e => writeError
                ("Failed to delete '" +:+ worDir +:+ ": " +:+ exn_msg e)).

Definition _deleteTemporaryDirectory (worDir : option string) : M unit :=
  match worDir with
  | None => ret tt
  | Some worDir =>
      let dirNam := fst (posixpath.split worDir) in
      if Str.find "tmp-simulator-" dirNam =? -1
      then delete_refused dirNam
      else delete_tree worDir dirNam
  end.

Definition deleteSimulateDirectory : M unit :=
  d <- gets (fun s => _simulateDir_ (this s)) ;;
  _deleteTemporaryDirectory d.

Definition _create_worDir : M string :=
  p <- gets (fun s => _packagePath (this s)) ;;
  match p with
  | None =>
      raise TypeError
        "expected str, bytes or os.PathLike object, not NoneType"
  | Some packagePath =>
      curDir <- gets (fun s => posixpath.abspath (cwd s) packagePath) ;;
      let ds := Str.split "/" curDir in
      match ds !! (length ds - 1)%nat with
      | None => raise IndexError "list index out of range"
      | Some dirNam =>
          u <- gets user ;;
          tmp <- FS.mkdtemp ("tmp-simulator-" +:+ u +:+ "-") ;;
          ret (posixpath.join tmp dirNam)
      end
  end.

(** [_BaseSimulator.__init__(self, modelName, outputDirectory, packagePath)] *)
Definition _BaseSimulator___init__ (modelName : string)
    (outputDirectory : string) (packagePath : option string) : M unit :=
  let logFilNam := posixpath.join outputDirectory "BuildingsPy.log" in
  set_obj (set__packagePath None) ;;
  match packagePath with
  | None => here <- gets (fun s => posixpath.abspath (cwd s) ".") ;;
            setPackagePath here
  | Some p => setPackagePath p
  end ;;
  set_obj (set_modelName modelName) ;;
  set_obj (set__simulator_ ∅) ;;
  set_obj (set__outputDir_ outputDirectory) ;;
  set_obj (set__simulateDir_ None) ;;
  _createDirectory outputDirectory ;;
  setResultFile modelName ;;
  setStartTime (PyInt 0) ;;
  setStopTime (PyInt 1) ;;
  setTolerance (PyFloat 1e-6) ;;
  setTimeOut (PyInt (-1)) ;;
  set_obj (set__MODELICA_EXE None) ;;
  foreign (Reporter E logFilNam).

Definition _BaseSimulator___init___params : list string :=
  ["modelName"; "outputDirectory"; "packagePath"].

(** A call [super().__init__(k1=v1, ...)] of that method: the keywords are
    bound first, and [outputDirectory] and [packagePath] have defaults. *)
Definition super___init__ (kwargs : list (string * arg)) : M unit :=
  match unexpected_keyword _BaseSimulator___init___params kwargs with
  | Some k =>
      raise TypeError
        ("__init__() got an unexpected keyword argument '" +:+ k +:+ "'")
  | None =>
      match kwarg "modelName" kwargs with
      | Some (AStr modelName) =>
          match default (AStr ".") (kwarg "outputDirectory" kwargs),
                default ANone (kwarg "packagePath" kwargs) with
          | AStr outputDirectory, AStr p =>
              _BaseSimulator___init__ modelName outputDirectory (Some p)
          | AStr outputDirectory, ANone =>
              _BaseSimulator___init__ modelName outputDirectory None
          | _, _ => raise TypeError "expected str"
          end
      | Some _ => raise AttributeError "object has no attribute 'split'"
      | None =>
          raise TypeError
            "__init__() missing 1 required positional argument: 'modelName'"
      end
  end.

Definition opt_arg (o : option string) : arg :=
  match o with
  | Some s => AStr s
  | None => ANone
  end.

(** ** [Dymola.py]: class [Dymola] *)

(** The statements of [Dymola.__init__] that follow the call of
    [super().__init__]. *)
Definition Dymola_init_tail (modelName : string) : M unit :=
  set_obj (set__preProcessing_ []) ;;
  set_obj (set__postProcessing_ []) ;;
  setStartTime (PyInt 0) ;;
  setStopTime (PyInt 1) ;;
  match last (Str.split "." modelName) with
  | Some short => setResultFile short
  | None => raise IndexError "list index out of range"
  end ;;
  setSolver (PyStr "radau") ;;
  set_obj (set__MODELICA_EXE (Some "dymola")) ;;
  set_obj (set__showGUI false).

Definition Dymola___init__ (modelName outputDirectory : string)
    (packagePath : option string) : M unit :=
  super___init__
    [("modelName", AStr modelName);
     ("outputDirectory", AStr outputDirectory);
     ("packagePath", opt_arg packagePath);
     ("outputFileList",
      AList ["run_simulate.mos"; "run_translate.mos"; "run.mos";
             "dsfinal.txt"; "dsin.txt"; "dsmodel*"; "dymosim";
             "dymosim.exe"]);
     ("logFileList",
      AList ["BuildingsPy.log"; "run.mos"; "run_simulate.mos";
             "run_translate.mos"; "simulator.log"; "translator.log";
             "dslog.txt"])] ;;
  Dymola_init_tail modelName.

Definition addPreProcessingStatement (command : string) : M unit :=
  l <- getattr "_preProcessing_" _preProcessing_ ;;
  set_obj (set__preProcessing_ (l ++ [command])%list).

Definition addPostProcessingStatement (command : string) : M unit :=
  l <- getattr "_postProcessing_" _postProcessing_ ;;
  set_obj (set__postProcessing_ (l ++ [command])%list).

Definition exitSimulator (exitAfterSimulation : bool) : M unit :=
  set_obj (set__exitSimulator exitAfterSimulation).

Definition showProgressBar (show : bool) : M unit :=
  set_obj (set__showProgressBar show).

Definition showGUI (show : bool) : M unit := set_obj (set__showGUI show).

Definition addModelModifier (modelModifier : string) : M unit :=
  l <- getattr "_modelModifiers_" _modelModifiers_ ;;
  set_obj (set__modelModifiers_ (l ++ [modelModifier])%list).

(** The head of the script and its [simulateModel] statement. *)
Definition script_head (working_directory log_file : string) : string :=
  nl +:+ "// File autogenerated by _get_dymola_commands" +:+ nl
  +:+ "// Do not edit." +:+ nl
  +:+ "//cd(" +:+ dq +:+ working_directory +:+ dq +:+ ");" +:+ nl
  +:+ "Modelica.Utilities.Files.remove(" +:+ dq +:+ log_file +:+ dq
  +:+ ");" +:+ nl
  +:+ "openModel(" +:+ dq +:+ "package.mo" +:+ dq +:+ ");" +:+ nl
  +:+ "OutputCPUtime:=true;" +:+ nl.

Definition script_simulate (sim : gmap string pyval) : string :=
  let intervals :=
    match sim !! "numberOfIntervals" with
    | Some n => ", numberOfIntervals=" +:+ py_str n
    | None => ""
    end in
  nl +:+ "simulateModel(modelInstance, startTime="
  +:+ py_str (dict_get sim "t0")
  +:+ ", stopTime=" +:+ py_str (dict_get sim "t1")
  +:+ ", method=" +:+ dq +:+ py_str (dict_get sim "solver") +:+ dq
  +:+ ", tolerance=" +:+ py_str (dict_get sim "eps")
  +:+ ", resultFile=" +:+ dq +:+ py_str (dict_get sim "resultFile") +:+ dq
  +:+ intervals +:+ ");" +:+ nl.

Definition _get_dymola_commands (working_directory log_file
    model_name : string) (translate_only : bool) : M string :=
  let s := script_head working_directory log_file in
  pre <- getattr "_preProcessing_" _preProcessing_ ;;
  let s := fold_left (fun s prePro => s +:+ prePro +:+ nl) pre s in
  let s := s +:+ "modelInstance=" +:+ model_name +:+ ";" +:+ nl in
  s <- (if translate_only
        then ret (s +:+ "translateModel(modelInstance);" +:+ nl)
        else sim <- gets (fun st => _simulator_ (this st)) ;;
             ret (s +:+ script_simulate sim)) ;;
  post <- getattr "_postProcessing_" _postProcessing_ ;;
  let s := fold_left (fun s posPro => s +:+ posPro +:+ nl) post s in
  let s := s +:+ "savelog(" +:+ dq +:+ log_file +:+ dq +:+ ");" +:+ nl in
  ex <- getattr "_exitSimulator" _exitSimulator ;;
  if ex : bool then ret (s +:+ "Modelica.Utilities.System.exit();" +:+ nl)
  else ret s.

(** The command list of [Dymola._runSimulation]. *)
Definition Dymola_cmd (exe : option string) (show : bool)
    (mosFile directory : string) : list pyval :=
  let mo_fil := Str.replace directory "." mosFile in
  let exe := match exe with Some x => PyStr x | None => PyNone end in
  if show then [exe; PyStr mo_fil]
  else [exe; PyStr mo_fil; PyStr "/nowindow"].

Definition Dymola__runSimulation (mosFile : string) (timeout : pyval)
    (directory : string) : M unit :=
  show <- getattr "_showGUI" _showGUI ;;
  exe <- gets (fun s => _MODELICA_EXE (this s)) ;;
  super__runSimulation E (Dymola_cmd exe show mosFile directory)
    timeout directory None.

Definition Dymola__check_simulation_errors (worDir : string) : M unit :=
  let path_to_logfile := posixpath.join worDir "simulator.log" in
  errs <- foreign (get_errors_and_warnings E path_to_logfile "dymola") ;;
  match errs with
  | [] => ret tt
  | _ => for_each errs writeError ;; raise IOError ""
  end.

Definition Dymola_deleteOutputFiles : M unit :=
  super_deleteOutputFiles E ;;
  r <- gets (fun s => dict_get (_simulator_ (this s)) "resultFile") ;;
  match r with
  | PyStr resultFile => _deleteFiles [resultFile +:+ "_result.mat"]
  | _ => raise TypeError "unsupported operand type(s) for +"
  end.

Definition simulation_failed (worDir : string) (e : exn) : string :=
  "Simulation failed in '" +:+ worDir +:+ "'" +:+ nl
  +:+ "   Exception: " +:+ exn_msg e +:+ "." +:+ nl
  +:+ "   You need to delete the directory manually." +:+ nl.

(** The steps of the [try] block of [Dymola.simulate] before the
    temporary directory is deleted. *)
Definition Dymola_simulate_steps (worDir mi : string) : M unit :=
  let runScriptName := posixpath.join worDir "run.mos" in
  txt <- _get_dymola_commands worDir "simulator.log" mi false ;;
  FS.write_file runScriptName txt ;;
  timeout <- gets (fun s => dict_get (_simulator_ (this s)) "timeout") ;;
  Dymola__runSimulation runScriptName timeout worDir ;;
  Dymola__check_simulation_errors worDir ;;
  _copyNewFiles E worDir.

(** The [try] statement that ends [Dymola.simulate]. *)
Definition Dymola_simulate_try (worDir mi : string) : M unit :=
  try_except
    (Dymola_simulate_steps worDir mi ;;
     _deleteTemporaryDirectory (Some worDir))
    is_Exception
    (fun e => writeError (simulation_failed worDir e)).

Definition package_abspath : M string :=
  p <- gets (fun s => _packagePath (this s)) ;;
  match p with
  | None =>
      raise TypeError
        "expected str, bytes or os.PathLike object, not NoneType"
  | Some packagePath =>
      gets (fun s => posixpath.abspath (cwd s) packagePath)
  end.

(** [Dymola.simulate] up to the copy of the package: the working directory
    is returned. *)
Definition Dymola_simulate_copy : M string :=
  Dymola_deleteOutputFiles ;;
  worDir <- _create_worDir ;;
  set_obj (set__simulateDir_ (Some worDir)) ;;
  src <- package_abspath ;;
  FS.copytree src worDir ["*.svn"; "*.git"] ;;
  ret worDir.

(** The model instance [mi] with the parameter values and the package
    redeclarations. *)
Definition Dymola_model_instance : M string :=
  dec <- _declare_parameters E ;;
  mods <- getattr "_modelModifiers_" _modelModifiers_ ;;
  let dec := (dec ++ mods)%list in
  mn <- gets (fun s => modelName (this s)) ;;
  ret (dq +:+ mn +:+ "(" +:+ Str.join "," dec +:+ ")" +:+ dq).

Definition Dymola_simulate : M unit :=
  worDir <- Dymola_simulate_copy ;;
  mi <- Dymola_model_instance ;;
  Dymola_simulate_try worDir mi.

(** ** [Optimica.py]: class [Optimica] *)

Definition Optimica_init_tail : M unit :=
  setSolver (PyStr "CVode") ;;
  set_obj (set__MODELICA_EXE (Some "jm_ipython.sh")).

Definition Optimica___init__ (modelName outputDirectory : string)
    (packagePath : option string) : M unit :=
  super___init__
    [("modelName", AStr modelName);
     ("outputDirectory", AStr outputDirectory);
     ("packagePath", opt_arg packagePath);
     ("outputFileList", AList ["*.fmu"]);
     ("logFileList", AList ["BuildingsPy.log"; "*_log.txt"])] ;;
  Optimica_init_tail.

Definition Optimica_deleteOutputFiles : M unit :=
  r <- gets (fun s => dict_get (_simulator_ (this s)) "resultFile") ;;
  _deleteFiles [py_str r +:+ ".mat"].

Definition Optimica_cmd (file_name : string) : list pyval :=
  [PyStr "jm_ipython.sh"; PyStr file_name].

(** The steps of the [try] block of [Optimica.simulate] before the
    temporary directory is deleted. *)
Definition Optimica_simulate_steps (worDir file_name : string)
    (env : gmap string string) : M unit :=
  timeout <- gets (fun s => dict_get (_simulator_ (this s)) "timeout") ;;
  super__runSimulation E (Optimica_cmd file_name) timeout worDir
    (Some env) ;;
  Optimica__check_simulation_errors E worDir ;;
  _copyResultFiles E worDir.

(** The [try] statement that ends [Optimica.simulate]. *)
Definition Optimica_simulate_try (worDir file_name : string)
    (env : gmap string string) : M unit :=
  try_except
    (Optimica_simulate_steps worDir file_name env ;;
     _deleteTemporaryDirectory (Some worDir))
    is_Exception
    (fun e => writeError (simulation_failed worDir e)).

(** [Optimica.simulate] up to the making of the working directory, which
    is returned. *)
Definition Optimica_simulate_mkdir : M string :=
  Optimica_deleteOutputFiles ;;
  worDir <- _create_worDir ;;
  ex <- FS.exists_ worDir ;;
  (if negb ex then FS.mkdir worDir else ret tt) ;;
  set_obj (set__simulateDir_ (Some worDir)) ;;
  ret worDir.

(** The script written from the template, and the environment: the name
    of the script and the copy of [os.environ] are returned. *)
Definition Optimica_simulate_script (worDir : string)
    : M (string * gmap string string) :=
  sim <- gets (fun s => _simulator_ (this s)) ;;
  mn <- gets (fun s => modelName (this s)) ;;
  txt <- foreign (render E
           (TemplateArgs mn (dict_get sim "numberOfIntervals")
              (dict_get sim "eps") (dict_get sim "solver")
              (dict_get sim "t0") (dict_get sim "t1")
              (dict_get sim "resultFile") true (dict_get sim "time_out")
              ["*"])) ;;
  print ("******** Working dir is " +:+ worDir) ;;
  print ("******** model name is " +:+ mn) ;;
  let file_name :=
    posixpath.join worDir (Str.replace "." "_" mn +:+ ".py") in
  FS.write_file file_name txt ;;
  print ("******** Wrote file " +:+ file_name) ;;
  env <- gets environ ;;
  here <- gets cwd ;;
  modify (fun s =>
    with_putenv
      (<["MODELICAPATH" :=
           match environ s !! "MODELICAPATH" with
           | None => here
           | Some mod_path => here +:+ ":" +:+ mod_path
           end]> (putenv s)) s) ;;
  ret (file_name, env).

Definition Optimica_simulate : M unit :=
  worDir <- Optimica_simulate_mkdir ;;
  fe <- Optimica_simulate_script worDir ;;
  Optimica_simulate_try worDir (fst fe) (snd fe).

End Classes.

(** ** Instances of the parameters and sample states *)

Definition no_attribute {A} (name : string) : M A :=
  raise AttributeError ("'super' object has no attribute '" +:+ name +:+ "'").

(** [open(path).read()], as a scraper or a copy would use it. *)
Definition read_file (p : string) : M string :=
  s <- get ;;
  match fs s !! FS.key s p with
  | Some (File txt) => ret txt
  | Some Dir => raise IsADirectoryError ("Is a directory: '" +:+ p +:+ "'")
  | None =>
      raise FileNotFoundError ("No such file or directory: '" +:+ p +:+ "'")
  end.

(** Modelled from the spec: the log scraper of [buildingspy.io.outputfile] is
    not among the sources; the spec calls it a pattern match for error
    markers in text output.  This one keeps the lines of the log file in
    which ["Error"] occurs. *)
Definition scrape_errors (path tool : string) : M (list string) :=
  txt <- read_file path ;;
  ret (List.filter (Str.contains "Error") (Str.split (ascii_of_nat 10) txt)).

Definition sample_float_repr (f : float) : string :=
  if PrimFloat.eqb f 1e-6 then "1e-06" else "float".

Definition sample_render (a : template_args) : M string :=
  ret ("simulate('" +:+ t_model a +:+ "')").

(** The three modules as they are written: a call of a method that no class
    defines raises [AttributeError]. *)
Definition as_written : externals :=
  Externals sample_float_repr (fun _ => ret tt) scrape_errors sample_render
    (fun _ _ _ _ => no_attribute "_runSimulation")
    (no_attribute "deleteOutputFiles")
    (no_attribute "_declare_parameters")
    (fun _ => no_attribute "_copyNewFiles")
    (fun _ => no_attribute "_copyResultFiles")
    (fun _ => no_attribute "_check_simulation_errors").

(** The outcome of a run of the external program, as a test double of the
    absent [_runSimulation] produces it: the log the program writes, or the
    exception of the call. *)
Inductive run_outcome :=
| Writes (log : string)
| Fails (c : exn_class) (msg : string).

(** The absent methods filled in: [_runSimulation] leaves the log of the
    outcome in the working directory, the other methods do nothing. *)
Definition filled_in (out : run_outcome) : externals :=
  Externals sample_float_repr (fun _ => ret tt) scrape_errors sample_render
    (fun _ _ directory _ =>
       match out with
       | Writes log =>
           FS.write_file (posixpath.join directory "simulator.log") log
       | Fails c msg => raise c msg
       end)
    (ret tt)
    (ret [])
    (fun _ => ret tt)
    (fun _ => ret tt)
    (fun worDir =>
       errs <- scrape_errors (posixpath.join worDir "simulator.log") "optimica" ;;
       match errs with
       | [] => ret tt
       | _ => raise IOError ""
       end).

Definition fresh_obj : obj :=
  Obj "" None ∅ "" None None None None None None None None.

Definition sample_fs : gmap string node :=
  list_to_map
    [("/", Dir); ("/tmp", Dir); ("/home", Dir); ("/home/u", Dir);
     ("/home/u/Lib", Dir);
     ("/home/u/Lib/package.mo", File "package Lib end Lib;");
     ("/home/u/Lib/.git", Dir);
     ("/home/u/Lib/.git/config", File "[core]");
     ("/home/u/Lib/Sub", Dir);
     ("/home/u/Lib/Sub/M.mo", File "model M end M;")].

Definition sample_state (o : obj) : state :=
  State o sample_fs ∅ "/home/u" "/tmp" "u" ["k3x9"; "q7w2"] ∅ ∅ [] [].

(** The object [_BaseSimulator.__init__] leaves, and the objects the bodies of
    the two subclass constructors would make of it. *)
Definition base_state : state :=
  snd (_BaseSimulator___init__ as_written "Lib.Sub.M" "out" (Some "Lib")
         (sample_state fresh_obj)).

Definition dymola_state : state := snd (Dymola_init_tail "Lib.Sub.M" base_state).

Definition optimica_state : state := snd (Optimica_init_tail base_state).

(** A [Dymola] object ready for [simulate]: the attributes that no
    constructor assigns have been given values. *)
Definition dymola_ready : state :=
  with_this (set__exitSimulator true
               (set__modelModifiers_ [] (this dymola_state))) dymola_state.

(** The working directory the sample states are given by [_create_worDir]. *)
Definition run_dir : string := "/tmp/tmp-simulator-u-k3x9/Lib".

(** The state in which [Dymola.simulate] has copied the package, and the
    model instance it goes on with. *)
Definition copied_state : state :=
  snd (Dymola_simulate_copy (filled_in (Writes "ok")) dymola_ready).

Definition sample_mi : string := dq +:+ "Lib.Sub.M()" +:+ dq.

(** The sample tree with the package directory closed to writing. *)
Definition readonly_state : state :=
  State fresh_obj sample_fs {["/home/u/Lib"]} "/home/u" "/tmp" "u" []
        ∅ ∅ [] [].

(** A working directory with the log of a run that failed. *)
Definition log_state : state :=
  State fresh_obj
    (list_to_map
       [("/", Dir); ("/w", Dir);
        ("/w/simulator.log",
         File ("Translating" +:+ nl +:+ "Error: singular" +:+ nl
               +:+ "Error: failed"))])
    ∅ "/" "/tmp" "u" [] ∅ ∅ [] [].

(** ** The states of a [Dymola] object

    What a client calls on the object between its construction and a run,
    and the states these calls lead to from the end of [Dymola.__init__];
    the operating system may change in between. *)
Inductive Dymola_call :=
| call_addPreProcessingStatement (command : string)
| call_addPostProcessingStatement (command : string)
| call_addModelModifier (modelModifier : string)
| call_exitSimulator (exitAfterSimulation : bool)
| call_showProgressBar (show : bool)
| call_showGUI (show : bool)
| call_setSolver (solver : pyval)
| call_setStartTime (t0 : pyval)
| call_setStopTime (t1 : pyval)
| call_setTolerance (eps : pyval)
| call_setTimeOut (sec : pyval)
| call_setResultFile (resultFile : string)
| call_setOutputDirectory (outputDirectory : string)
| call_setPackagePath (packagePath : string)
| call_deleteSimulateDirectory.

Definition do_call (c : Dymola_call) : M unit :=
  match c with
  | call_addPreProcessingStatement command => addPreProcessingStatement command
  | call_addPostProcessingStatement command =>
      addPostProcessingStatement command
  | call_addModelModifier m => addModelModifier m
  | call_exitSimulator b => exitSimulator b
  | call_showProgressBar b => showProgressBar b
  | call_showGUI b => showGUI b
  | call_setSolver v => setSolver v
  | call_setStartTime v => setStartTime v
  | call_setStopTime v => setStopTime v
  | call_setTolerance v => setTolerance v
  | call_setTimeOut v => setTimeOut v
  | call_setResultFile r => setResultFile r
  | call_setOutputDirectory d => setOutputDirectory d ;; ret tt
  | call_setPackagePath p => setPackagePath p
  | call_deleteSimulateDirectory => deleteSimulateDirectory
  end.

Inductive Dymola_object : state -> Prop :=
| constructed modelName s s' :
    Dymola_init_tail modelName s = (Ok tt, s') -> Dymola_object s'
| called c s r s' :
    Dymola_object s -> do_call c s = (r, s') -> Dymola_object s'
| elsewhere s s' :
    Dymola_object s -> this s' = this s -> Dymola_object s'.

(** No path of the file tree has an empty component. *)
Definition tidy (m : gmap string node) : Prop :=
  map_Forall (fun k _ => Str.contains "//" k = false) m.

(** A statement keeps the object when no attribute is assigned. *)
Definition keeps_this {A} (m : M A) : Prop :=
  forall s r s', m s = (r, s') -> this s' = this s.

(** A statement preserves a property of the object, whether it returns or
    raises. *)
Definition preserves {A} (P : obj -> Prop) (m : M A) : Prop :=
  forall s r s', m s = (r, s') -> P (this s) -> P (this s').

(** What [Dymola.__init__] assigns and no method changes. *)
Definition Dymola_invariant (o : obj) : Prop :=
  _MODELICA_EXE o = Some "dymola" /\ is_Some (_showGUI o).

(** A directory with the ["/"] that ends it, as it stands before a path
    relative to it. *)
Definition stem (d : string) : string :=
  if Str.eqb d "/" then "/" else d +:+ "/".

(** The statements of a list, each on a line of its own. *)
Fixpoint lines (l : list string) : string :=
  match l with
  | [] => ""
  | x :: l' => x +:+ nl +:+ lines l'
  end.

(** * Properties *)

#[local] Arguments String.append : simpl nomatch.

(** ** The monad *)

Lemma bind_Ok {A B} (m : M A) (k : A -> M B) s b s' :
  bind m k s = (Ok b, s') ->
  exists a s1, m s = (Ok a, s1) /\ k a s1 = (Ok b, s').
Proof.
  unfold bind. destruct (m s) as [[a | e] s1]; [eauto | discriminate].
Qed.

Lemma bind_eq_Ok {A B} (m : M A) (k : A -> M B) s a s1 :
  m s = (Ok a, s1) -> bind m k s = k a s1.
Proof. unfold bind. now intros ->. Qed.

Lemma bind_eq_Raise {A B} (m : M A) (k : A -> M B) s e s1 :
  m s = (Raise e, s1) -> bind m k s = (Raise e, s1).
Proof. unfold bind. now intros ->. Qed.

Lemma foreign_this {A} (f : M A) s r s' :
  foreign f s = (r, s') -> this s' = this s.
Proof.
  unfold foreign. destruct (f s) as [r0 s0]. intros [= _ <-]. reflexivity.
Qed.

(** Peels the first statement off a sequence known to end normally. *)
Ltac bind_inv H :=
  let a := fresh "a" in
  let s1 := fresh "s" in
  let H1 := fresh "H" in
  apply bind_Ok in H; destruct H as (a & s1 & H1 & H).

(** ** Strings *)

Lemma str_app_nil_r (s : string) : s +:+ "" = s.
Proof. induction s as [| a s IH]; simpl; [reflexivity | now rewrite IH]. Qed.

Lemma str_app_assoc (a b c : string) : (a +:+ b) +:+ c = a +:+ (b +:+ c).
Proof. induction a as [| x a IH]; simpl; [reflexivity | now rewrite IH]. Qed.

Lemma str_length_app (a b : string) :
  String.length (a +:+ b) = (String.length a + String.length b)%nat.
Proof. induction a as [| x a IH]; simpl; [reflexivity | now rewrite IH]. Qed.

Lemma eqb_eq (a b : string) : Str.eqb a b = true <-> a = b.
Proof. unfold Str.eqb. apply bool_decide_eq_true. Qed.

Lemma eqb_neq (a b : string) : Str.eqb a b = false <-> a <> b.
Proof. unfold Str.eqb. apply bool_decide_eq_false. Qed.

Lemma startswith_app (p s : string) : Str.startswith p (p +:+ s) = true.
Proof.
  induction p as [| a p IH]; simpl; [reflexivity |].
  now rewrite Ascii.eqb_refl.
Qed.

Lemma startswith_inv (p s : string) :
  Str.startswith p s = true -> exists t, s = p +:+ t.
Proof.
  revert s. induction p as [| a p IH]; intros s H; simpl in *.
  - now exists s.
  - destruct s as [| b s]; [discriminate |].
    apply andb_true_iff in H as [Hab H]. apply Ascii.eqb_eq in Hab as ->.
    destruct (IH _ H) as [t ->]. now exists t.
Qed.

Lemma contains_startswith (sub s : string) :
  Str.startswith sub s = true -> Str.contains sub s = true.
Proof. intros H. destruct s; simpl; now rewrite H. Qed.

Lemma contains_app (sub p q : string) :
  Str.contains sub (p +:+ sub +:+ q) = true.
Proof.
  induction p as [| a p IH]; simpl.
  - apply contains_startswith, startswith_app.
  - rewrite IH. apply orb_true_r.
Qed.

Lemma contains_inv (sub s : string) :
  Str.contains sub s = true -> exists p q, s = p +:+ sub +:+ q.
Proof.
  induction s as [| a s IH]; simpl; intros H.
  - rewrite orb_false_r in H. apply startswith_inv in H as [t Ht].
    now exists "", t.
  - apply orb_true_iff in H as [H | H].
    + apply startswith_inv in H as [t Ht]. now exists "", t.
    + destruct (IH H) as (p & q & ->). now exists (String a p), q.
Qed.

(** [find] answers [-1] exactly when the string is not contained. *)
Lemma find_from_spec (sub s : string) (i : Z) :
  0 <= i ->
  if Str.contains sub s then i <= Str.find_from i sub s
  else Str.find_from i sub s = -1.
Proof.
  revert i. induction s as [| a s IH]; intros i Hi; simpl.
  - destruct (Str.startswith sub ""); simpl; lia.
  - destruct (Str.startswith sub (String a s)); simpl; [lia |].
    specialize (IH (i + 1) ltac:(lia)).
    destruct (Str.contains sub s); lia.
Qed.

Lemma find_minus_one (sub s : string) :
  (Str.find sub s =? -1) = negb (Str.contains sub s).
Proof.
  unfold Str.find. pose proof (find_from_spec sub s 0 ltac:(lia)) as H.
  destruct (Str.contains sub s); simpl.
  - apply Z.eqb_neq. lia.
  - apply Z.eqb_eq. exact H.
Qed.

Lemma split_not_nil (c : ascii) (s : string) : Str.split c s <> [].
Proof.
  destruct s as [| a s]; simpl; [discriminate |].
  destruct (Ascii.eqb a c); [discriminate |].
  destruct (Str.split c s); discriminate.
Qed.

(** The last piece of [s.split(c)] is free of [c], and it is [s] itself or
    what follows the last [c] of [s]. *)
Lemma split_last (c : ascii) (s : string) :
  exists r,
    last (Str.split c s) = Some r
    /\ Str.contains (String c "") r = false
    /\ ((length (Str.split c s) = 1%nat /\ s = r)
        \/ ((1 < length (Str.split c s))%nat
            /\ exists p, s = p +:+ String c r)).
Proof.
  induction s as [| a s (r & Hl & Hc & Hs)]; simpl.
  - exists "". repeat split; auto.
  - destruct (Ascii.eqb a c) eqn:Hac.
    + apply Ascii.eqb_eq in Hac as ->. exists r.
      pose proof (split_not_nil c s) as Hne.
      destruct (Str.split c s) as [| h t] eqn:Hsp; [contradiction |].
      repeat split; auto. right. split; [simpl; lia |].
      destruct Hs as [[_ ->] | [_ [p ->]]]; [now exists "" |].
      now exists (String c p).
    + destruct (Str.split c s) as [| h t] eqn:Hsp;
        [now destruct (split_not_nil c s) |].
      destruct t as [| h' t].
      * simpl in Hl. injection Hl as ->.
        exists (String a r). repeat split; auto.
        -- cbn [Str.contains Str.startswith].
           rewrite Ascii.eqb_sym, Hac. exact Hc.
        -- left. split; auto.
           destruct Hs as [[_ ->] | [Hlen _]]; [auto | simpl in Hlen; lia].
      * exists r. repeat split; auto. right. split; [simpl; lia |].
        destruct Hs as [[Hlen _] | [_ [p ->]]]; [discriminate |].
        now exists (String a p).
Qed.

Section Properties.

Context (E : externals).

(** ** The constructors *)

(** C2: whatever [modelName], [outputDirectory] and [packagePath] are, the
    constructors of [Dymola] and of [Optimica] raise [TypeError]: the call
    of [super().__init__] passes the keyword [outputFileList], which is no
    parameter of [_BaseSimulator.__init__], and nothing has been done to
    the state by then. *)
Theorem constructors_raise_TypeError (modelName outputDirectory : string)
    (packagePath : option string) (st : state) :
  let e := Exn TypeError
    "__init__() got an unexpected keyword argument 'outputFileList'" in
  Dymola___init__ E modelName outputDirectory packagePath st = (Raise e, st)
  /\ Optimica___init__ E modelName outputDirectory packagePath st
     = (Raise e, st).
Proof.
  unfold Dymola___init__, Optimica___init__, super___init__, bind.
  destruct packagePath; repeat split; reflexivity.
Qed.

(** ** The settings *)

Lemma update_simulator_eq (k : string) (v : pyval) (st : state) :
  update_simulator k v st
  = (Ok tt, with_this (set__simulator_ (<[k := v]> (_simulator_ (this st)))
                         (this st)) st).
Proof. reflexivity. Qed.

Lemma setResultFile_eq (resultFile : string) (st : state) :
  exists r,
    last (Str.split "." resultFile) = Some r
    /\ setResultFile resultFile st = update_simulator "resultFile" (PyStr r) st.
Proof.
  destruct (split_last "." resultFile) as (r & Hl & _).
  exists r. split; [exact Hl |].
  unfold setResultFile. rewrite last_lookup in Hl.
  replace (length (Str.split "." resultFile) - 1)%nat
    with (pred (length (Str.split "." resultFile))) by lia.
  now rewrite Hl.
Qed.

(** C10: for every string [s], [setResultFile(s)] returns normally and
    stores under [resultFile] a string [r] without ["."] such that [s] is
    [r] itself when [s] has no ["."], and is some [p + "." + r] otherwise,
    so that [r] is what follows the last ["."]; every other key of the
    settings keeps its value, and nothing else of the state changes. *)
Theorem setResultFile_stores_last_component (s : string) (st : state) :
  exists r st',
    setResultFile s st = (Ok tt, st')
    /\ _simulator_ (this st') !! "resultFile" = Some (PyStr r)
    /\ Str.contains "." r = false
    /\ (Str.contains "." s = false -> r = s)
    /\ (Str.contains "." s = true -> exists p, s = p +:+ "." +:+ r)
    /\ (forall k, k <> "resultFile" ->
          _simulator_ (this st') !! k = _simulator_ (this st) !! k)
    /\ st' = with_this (set__simulator_ (_simulator_ (this st')) (this st))
               st.
Proof.
  destruct (split_last "." s) as (r & Hl & Hc & Hs).
  destruct (setResultFile_eq s st) as (r' & Hl' & Heq).
  rewrite Hl in Hl'. injection Hl' as <-.
  exists r. eexists. split; [rewrite Heq; apply update_simulator_eq |].
  simpl. split; [apply lookup_insert_eq |]. split; [exact Hc |].
  split; [| split; [| split]].
  - intros Hn. destruct Hs as [[_ ->] | [_ [p ->]]]; [reflexivity |].
    pose proof (contains_app "." p r) as Hp. simpl in Hp. congruence.
  - intros Hy. destruct Hs as [[_ ->] | [_ [p ->]]]; [congruence |].
    now exists p.
  - intros k Hk. now apply lookup_insert_ne.
  - reflexivity.
Qed.


(** Statements that leave the object as it is. *)
Lemma keeps_ret {A} (a : A) : keeps_this (ret a).
Proof. intros s r s' [= <- <-]. reflexivity. Qed.

Lemma keeps_raise {A} c msg : keeps_this (@raise A c msg).
Proof. intros s r s' [= <- <-]. reflexivity. Qed.

Lemma keeps_get : keeps_this get.
Proof. intros s r s' [= <- <-]. reflexivity. Qed.

Lemma keeps_gets {A} (f : state -> A) : keeps_this (gets f).
Proof. intros s r s' [= <- <-]. reflexivity. Qed.

Lemma keeps_modify (f : state -> state) :
  (forall s, this (f s) = this s) -> keeps_this (modify f).
Proof. intros Hf s r s' [= <- <-]. apply Hf. Qed.

Lemma keeps_bind {A B} (m : M A) (k : A -> M B) :
  keeps_this m -> (forall a, keeps_this (k a)) -> keeps_this (bind m k).
Proof.
  intros Hm Hk s r s'. unfold bind.
  destruct (m s) as [[a | e] s1] eqn:H1.
  - intros H2. rewrite (Hk _ _ _ _ H2). eapply Hm, H1.
  - intros [= <- <-]. eapply Hm, H1.
Qed.

Lemma keeps_try_except {A} (body : M A) catches handler :
  keeps_this body -> (forall e, keeps_this (handler e)) ->
  keeps_this (try_except body catches handler).
Proof.
  intros Hb Hh s r s'. unfold try_except.
  destruct (body s) as [[a | e] s1] eqn:H1.
  - intros [= <- <-]. eapply Hb, H1.
  - destruct (catches e).
    + intros H2. rewrite (Hh _ _ _ _ H2). eapply Hb, H1.
    + intros [= <- <-]. eapply Hb, H1.
Qed.

Lemma keeps_for_each {A} (l : list A) (body : A -> M unit) :
  (forall x, keeps_this (body x)) -> keeps_this (for_each l body).
Proof.
  intros Hb. induction l as [| x l IH]; simpl.
  - apply keeps_ret.
  - apply keeps_bind; auto.
Qed.

Lemma keeps_foreign {A} (f : M A) : keeps_this (foreign f).
Proof. intros s r s' H. eapply foreign_this, H. Qed.

Lemma keeps_writeError (msg : string) : keeps_this (writeError msg).
Proof. now apply keeps_modify. Qed.

Create HintDb keeps.

Ltac keeps :=
  repeat first
    [ solve [auto 1 with keeps nocore]
    | simple apply keeps_ret | simple apply keeps_raise
    | simple apply keeps_get | simple apply keeps_gets
    | simple apply keeps_writeError
    | simple apply keeps_modify; intros; reflexivity
    | simple apply keeps_bind; [| intros ?]
    | simple apply keeps_try_except; [| intros ?]
    | simple apply keeps_for_each; intros ?
    | simple apply keeps_foreign
    | match goal with
      | |- keeps_this (if ?x then _ else _) => destruct x
      | |- keeps_this (match ?x with _ => _ end) => destruct x
      end ].

Lemma keeps_exists (p : string) : keeps_this (FS.exists_ p).
Proof. apply keeps_gets. Qed.

Lemma keeps_mkdir (p : string) : keeps_this (FS.mkdir p).
Proof. unfold FS.mkdir. keeps. Qed.

Lemma keeps_makedirs (p : string) : keeps_this (FS.makedirs p).
Proof. unfold FS.makedirs. keeps. Qed.

Lemma keeps_remove (p : string) : keeps_this (FS.remove p).
Proof. unfold FS.remove. keeps. Qed.

Lemma keeps_rmtree (p : string) : keeps_this (FS.rmtree p).
Proof. unfold FS.rmtree. keeps. Qed.

Lemma keeps_write_file (p txt : string) : keeps_this (FS.write_file p txt).
Proof. unfold FS.write_file. keeps. Qed.

#[local] Hint Resolve keeps_exists keeps_mkdir keeps_makedirs keeps_remove
  keeps_rmtree keeps_write_file : keeps.

Lemma keeps_copytree src dst pats : keeps_this (FS.copytree src dst pats).
Proof. unfold FS.copytree. keeps. Qed.

Lemma keeps_mkdtemp (prefix : string) : keeps_this (FS.mkdtemp prefix).
Proof.
  unfold FS.mkdtemp. apply keeps_bind; [apply keeps_gets |].
  intros l. induction l as [| name rest IH]; simpl; keeps.
Qed.

Lemma keeps__createDirectory (d : string) : keeps_this (_createDirectory d).
Proof. unfold _createDirectory, FS.access_W_OK. keeps. Qed.

Lemma keeps__deleteFiles (l : list string) : keeps_this (_deleteFiles l).
Proof. unfold _deleteFiles. keeps. Qed.

Lemma keeps__deleteTemporaryDirectory worDir :
  keeps_this (_deleteTemporaryDirectory worDir).
Proof.
  unfold _deleteTemporaryDirectory, delete_refused, delete_tree. keeps.
Qed.

#[local] Hint Resolve keeps_copytree keeps_mkdtemp keeps__createDirectory
  keeps__deleteFiles keeps__deleteTemporaryDirectory : keeps.

Lemma setPackagePath_Ok (p : string) (s s' : state) :
  setPackagePath p s = (Ok tt, s') ->
  s' = with_this (set__packagePath (Some p) (this s)) s.
Proof.
  unfold setPackagePath, bind, FS.exists_, FS.isdir, gets, raise, set_obj,
    modify.
  destruct (negb _); [discriminate |]. destruct (negb _); [discriminate |].
  now intros [= <-].
Qed.

(** C8: whenever [_BaseSimulator.__init__] returns, the settings are
    exactly [t0=0], [t1=1], [eps=1E-6], [timeout=-1] and [resultFile=r],
    where [r] is the last piece of [modelName.split(".")]: it has no
    ["."], and [modelName] is [r] or ends with ["."] followed by [r]. *)
Theorem base_init_settings (modelName outputDirectory : string)
    (packagePath : option string) (st st' : state) :
  _BaseSimulator___init__ E modelName outputDirectory packagePath st
    = (Ok tt, st') ->
  exists r,
    last (Str.split "." modelName) = Some r
    /\ Str.contains "." r = false
    /\ (modelName = r \/ exists p, modelName = p +:+ "." +:+ r)
    /\ _simulator_ (this st')
       = <["timeout" := PyInt (-1)]>
           (<["eps" := PyFloat 1e-6]>
              (<["t1" := PyInt 1]>
                 (<["t0" := PyInt 0]>
                    (<["resultFile" := PyStr r]> ∅)))).
Proof.
  intros H. unfold _BaseSimulator___init__ in H.
  destruct (split_last "." modelName) as (r & Hl & Hc & Hs).
  destruct (setResultFile_eq modelName) with (st := st) as (r' & Hl' & _).
  rewrite Hl in Hl'. injection Hl' as <-.
  exists r. split; [exact Hl |]. split; [exact Hc |]. split.
  { destruct Hs as [[_ ->] | [_ [p ->]]]; [now left | right; now exists p]. }
  bind_inv H. clear H0.
  bind_inv H. clear H0.
  do 4 (bind_inv H; injection H0 as <- <-).
  bind_inv H. apply keeps__createDirectory in H0.
  bind_inv H.
  destruct (setResultFile_eq modelName s1) as (r' & Hl' & Heq).
  rewrite Hl in Hl'. injection Hl' as <-.
  rewrite Heq, update_simulator_eq in H1. injection H1 as <- <-.
  do 5 (bind_inv H; injection H1 as <- <-).
  apply foreign_this in H. rewrite H. simpl. rewrite H0. reflexivity.
Qed.

(** ** Deleting the temporary directory *)

(** C9: [_deleteTemporaryDirectory(None)] returns at once and changes
    nothing; and when the parent path [os.path.split(worDir)[0]] does not
    contain ["tmp-simulator-"], the call writes one error message and
    returns, the file tree and all else being as before, so that nothing
    is removed. *)
Theorem delete_refused_without_marker (worDir : string) (st : state) :
  Str.contains "tmp-simulator-" (fst (posixpath.split worDir)) = false ->
  _deleteTemporaryDirectory None st = (Ok tt, st)
  /\ _deleteTemporaryDirectory (Some worDir) st
     = (Ok tt,
        with_errors
          (errors st
           ++ ["Failed to delete '" +:+ fst (posixpath.split worDir)
               +:+ "' as it does not seem to be a valid directory name."])
          st)
  /\ fs (snd (_deleteTemporaryDirectory (Some worDir) st)) = fs st.
Proof.
  intros H. split; [reflexivity |].
  unfold _deleteTemporaryDirectory. rewrite find_minus_one, H. simpl.
  split; reflexivity.
Qed.

(** The deletion is attempted exactly when the marker is there. *)
Lemma delete_with_marker (worDir : string) (st : state) :
  Str.contains "tmp-simulator-" (fst (posixpath.split worDir)) = true ->
  _deleteTemporaryDirectory (Some worDir) st
  = delete_tree worDir (fst (posixpath.split worDir)) st.
Proof.
  intros H. unfold _deleteTemporaryDirectory.
  now rewrite find_minus_one, H.
Qed.

(** [_deleteTemporaryDirectory] never raises: [rmtree] fails with an
    [OSError] only, which is caught. *)
Lemma rmtree_raises_OSError (p : string) (s s' : state) (e : exn) :
  FS.rmtree p s = (Raise e, s') -> is_OSError e = true /\ s' = s.
Proof.
  unfold FS.rmtree, bind, get, modify, raise.
  destruct (fs s !! FS.key s p) as [[| c] |]; intros [= <- <-]; auto.
Qed.

Lemma _deleteTemporaryDirectory_returns worDir (st : state) :
  fst (_deleteTemporaryDirectory worDir st) = Ok tt.
Proof.
  destruct worDir as [worDir |]; [| reflexivity].
  unfold _deleteTemporaryDirectory.
  destruct (_ =? _); [reflexivity |].
  unfold delete_tree, try_except, bind, FS.exists_, gets.
  destruct (bool_decide _); [| reflexivity].
  destruct (FS.rmtree _ st) as [[[] | e] s'] eqn:Hr; [reflexivity |].
  apply rmtree_raises_OSError in Hr as [-> _]. reflexivity.
Qed.

(** ** The log scraper *)

(** C3: [Dymola._check_simulation_errors] scrapes [simulator.log] in the
    working directory with the tool name [dymola].  When the scraper
    reports the error lines [errs], the method raises [IOError] if and only
    if [errs] is not empty; it has then given every line of [errs], in
    order, to the reporter; with no error line it returns and leaves the
    state the scraper left. *)
Theorem check_simulation_errors_iff (worDir : string) (errs : list string)
    (st st' : state) :
  get_errors_and_warnings E (posixpath.join worDir "simulator.log") "dymola"
    st = (Ok errs, st') ->
  let st1 := with_this (this st) st' in
  let res := Dymola__check_simulation_errors E worDir st in
  (errs = [] -> res = (Ok tt, st1))
  /\ (errs <> [] ->
      res = (Raise (Exn IOError ""),
             with_errors (errors st1 ++ errs) st1))
  /\ ((exists m s, res = (Raise (Exn IOError m), s)) <-> errs <> []).
Proof.
  intros H st1 res.
  assert (Hfor : forall l s,
             for_each l writeError s
             = (Ok tt, with_errors (errors s ++ l) s)).
  { induction l as [| x l IH]; intros s; simpl.
    - unfold ret. rewrite List.app_nil_r. now destruct s.
    - unfold bind at 1. unfold writeError at 1, modify. rewrite IH. simpl.
      now rewrite <- List.app_assoc. }
  assert (Hres : res = match errs with
                       | [] => (Ok tt, st1)
                       | _ => (Raise (Exn IOError ""),
                               with_errors (errors st1 ++ errs) st1)
                       end).
  { subst res. unfold Dymola__check_simulation_errors, bind at 1.
    unfold foreign. rewrite H. fold st1.
    destruct errs as [| x l]; [reflexivity |].
    unfold bind. rewrite Hfor. reflexivity. }
  rewrite Hres. destruct errs as [| x l]; repeat split; try congruence.
  - intros (m & s & [=]).
  - intros _. eauto.
Qed.

(** ** Paths *)

Lemma contains_char_cons (c a : ascii) (s : string) :
  Str.contains (String c "") (String a s) = false ->
  Ascii.eqb a c = false /\ Str.contains (String c "") s = false.
Proof.
  cbn [Str.contains Str.startswith]. rewrite andb_true_r, Ascii.eqb_sym.
  apply orb_false_iff.
Qed.

Lemma startswith_slash_contains (d : string) :
  Str.contains "/" d = false -> Str.startswith "/" d = false.
Proof.
  destruct d as [| a d]; [reflexivity |].
  intros H. apply contains_char_cons in H as [H _].
  cbn [Str.startswith]. now rewrite andb_true_r, Ascii.eqb_sym.
Qed.

Lemma drop_split (n : nat) (s : string) :
  exists t, s = t +:+ Str.drop n s.
Proof.
  revert s. induction n as [| n IH]; intros s; simpl.
  - now exists "".
  - destruct s as [| a s]; [now exists "" |].
    destruct (IH s) as [t Ht]. exists (String a t). simpl. now rewrite <- Ht.
Qed.

Lemma endswith_inv (p s : string) :
  Str.endswith p s = true -> exists t, s = t +:+ p.
Proof.
  unfold Str.endswith. intros H. apply andb_true_iff in H as [_ H].
  apply eqb_eq in H.
  destruct (drop_split (String.length s - String.length p) s) as [t Ht].
  exists t. now rewrite H in Ht.
Qed.

(** [os.path.join] puts the second path after the first, with one ["/"]
    between them unless the first ends with one. *)
Lemma join_relative (a b : string) :
  Str.startswith "/" b = false ->
  posixpath.join a b = a +:+ "/" +:+ b
  \/ (posixpath.join a b = a +:+ b
      /\ (a = "" \/ exists t, a = t +:+ "/")).
Proof.
  intros Hb. unfold posixpath.join. rewrite Hb.
  destruct (Str.eqb a "") eqn:Ha; simpl.
  - right. split; [reflexivity |]. left. now apply eqb_eq.
  - destruct (Str.endswith "/" a) eqn:He; [| now left].
    right. split; [reflexivity |]. right. now apply endswith_inv.
Qed.

Lemma cut_last_noslash (d : string) :
  Str.contains "/" d = false -> posixpath.cut_last d = ("", d).
Proof.
  induction d as [| a d IH]; [reflexivity |].
  intros H. apply contains_char_cons in H as [Ha Hd].
  cbn [posixpath.cut_last]. rewrite (IH Hd). cbn [Str.eqb].
  now rewrite Ha.
Qed.

Lemma cut_last_app (x d : string) :
  Str.contains "/" d = false ->
  posixpath.cut_last (x +:+ d)
  = (fst (posixpath.cut_last x), snd (posixpath.cut_last x) +:+ d).
Proof.
  intros Hd. induction x as [| a x IH]; simpl.
  - now rewrite cut_last_noslash.
  - rewrite IH. destruct (posixpath.cut_last x) as [h t]. simpl.
    destruct (Str.eqb h ""); [| reflexivity].
    destruct (Ascii.eqb a "/"); reflexivity.
Qed.

Lemma cut_last_slash (x : string) :
  posixpath.cut_last (x +:+ "/") = (x +:+ "/", "").
Proof.
  induction x as [| a x IH]; [reflexivity |]. simpl. rewrite IH.
  destruct (Str.eqb (x +:+ "/") "") eqn:He; [| reflexivity].
  apply eqb_eq in He. destruct x; discriminate.
Qed.

Lemma rstrip_keep (c a : ascii) (x y : string) :
  Ascii.eqb a c = false ->
  Str.rstrip c (x +:+ String a y) = x +:+ String a (Str.rstrip c y).
Proof.
  intros Ha. induction x as [| b x IH]; simpl.
  - now rewrite Ha.
  - rewrite IH. replace (Str.eqb _ "") with false.
    + now rewrite andb_false_r.
    + symmetry. apply eqb_neq. destruct x; discriminate.
Qed.

Lemma rstrip_noslash (n : string) :
  Str.contains "/" n = false -> Str.rstrip "/" (n +:+ "/") = n.
Proof.
  induction n as [| a n IH]; [reflexivity |].
  intros H. apply contains_char_cons in H as [Ha Hn].
  cbn [String.append Str.rstrip]. rewrite (IH Hn). now rewrite Ha.
Qed.

Lemma contains_prefix (a b s : string) :
  Str.contains (a +:+ b) s = true -> Str.contains a s = true.
Proof.
  intros H. apply contains_inv in H as (p & q & ->).
  rewrite str_app_assoc. apply contains_app.
Qed.

Lemma rstrip_id (n : string) :
  Str.contains "/" n = false -> Str.rstrip "/" n = n.
Proof.
  induction n as [| a n IH]; [reflexivity |].
  intros H. apply contains_char_cons in H as [Ha Hn].
  cbn [Str.rstrip]. rewrite (IH Hn). now rewrite Ha.
Qed.

(** The parent of [join(tmp, dirNam)], for a temporary directory [tmp]
    named with the prefix [pre + "-"] and a [dirNam] free of ["/"]. *)
Lemma split_join_temporary (y pre name dirNam : string) :
  Str.contains "/" dirNam = false ->
  let tmp := y +:+ (pre +:+ "-") +:+ name in
  Str.contains (pre +:+ "-")
    (fst (posixpath.split (posixpath.join tmp dirNam))) = true
  /\ (Str.contains "/" name = false ->
      fst (posixpath.split (posixpath.join tmp dirNam)) = tmp).
Proof.
  intros Hd tmp.
  assert (Htmp : forall z, tmp +:+ z = (y +:+ pre) +:+ String "-" (name +:+ z)).
  { intros z. unfold tmp. now rewrite !str_app_assoc. }
  assert (Hh : exists name',
             fst (posixpath.cut_last (posixpath.join tmp dirNam))
             = (y +:+ pre) +:+ String "-" name'
             /\ (Str.contains "/" name = false ->
                 Str.rstrip "/" name' = name)).
  { destruct (join_relative tmp dirNam) as [-> | [-> [He | [t He]]]].
    - now apply startswith_slash_contains.
    - exists (name +:+ "/").
      rewrite <- str_app_assoc, cut_last_app, cut_last_slash by exact Hd.
      split; [apply Htmp | apply rstrip_noslash].
    - specialize (Htmp ""). rewrite str_app_nil_r, He in Htmp.
      destruct (y +:+ pre); discriminate.
    - exists name. rewrite He, cut_last_app, cut_last_slash by exact Hd.
      rewrite <- He. specialize (Htmp ""). rewrite !str_app_nil_r in Htmp.
      split; [exact Htmp | apply rstrip_id]. }
  destruct Hh as (name' & Hh & Hname).
  unfold posixpath.split.
  destruct (posixpath.cut_last (posixpath.join tmp dirNam)) as [h t].
  simpl in Hh. subst h. rewrite rstrip_keep by reflexivity.
  replace (Str.eqb _ "") with false.
  2:{ symmetry. apply eqb_neq. destruct (y +:+ pre); discriminate. }
  simpl. split.
  - replace ((y +:+ pre) +:+ String "-" (Str.rstrip "/" name'))
      with (y +:+ (pre +:+ "-") +:+ Str.rstrip "/" name')
      by now rewrite !str_app_assoc.
    apply contains_app.
  - intros Hn. rewrite (Hname Hn). specialize (Htmp "").
    now rewrite !str_app_nil_r in Htmp.
Qed.

(** ** The working directory *)

(** [mkdtemp] returns a directory it has just made under one of the
    candidate names, which was not there before; the names tried are
    used up, and nothing else changes. *)
Lemma mkdtemp_loop_Ok (prefix : string) (l : list string)
    (s s' : state) (tmp : string) :
  FS.mkdtemp_loop prefix l s = (Ok tmp, s') ->
  exists name rest,
    name ∈ l
    /\ tmp = posixpath.join (tempdir s) (prefix +:+ name)
    /\ fs s !! FS.key s tmp = None
    /\ s' = with_fs (<[FS.key s tmp := Dir]> (fs s)) (with_names rest s).
Proof.
  revert s. induction l as [| name rest IH]; intros s; simpl.
  - discriminate.
  - unfold bind at 1. unfold modify at 1.
    unfold bind at 1. unfold gets at 1. cbn [tempdir with_names].
    set (s1 := with_names rest s).
    set (file := posixpath.join (tempdir s) (prefix +:+ name)).
    unfold try_except, bind at 1, FS.mkdir, bind at 1, get at 1.
    change (FS.key s1 file) with (FS.key s file).
    change (fs s1) with (fs s).
    destruct (fs s !! FS.key s file) as [n |] eqn:Hk.
    + cbn. intros H. apply IH in H as (name' & rest' & Hin & -> & Hn & ->).
      exists name', rest'. split; [now right |]. repeat split; auto.
    + destruct (fs s !! FS.parent (FS.key s file)) as [[| c] |];
        cbn; [| discriminate | discriminate].
      intros [= <- <-]. exists name, rest.
      split; [now left |]. repeat split; auto.
Qed.

(** The parts of a path returned by [_create_worDir], for the lemmas on
    runs below. *)
Lemma create_worDir_parts (st st' : state) (worDir : string) :
  _create_worDir st = (Ok worDir, st') ->
  exists pkg dirNam name tmp,
    _packagePath (this st) = Some pkg
    /\ last (Str.split "/" (posixpath.abspath (cwd st) pkg)) = Some dirNam
    /\ name ∈ names st
    /\ tmp = posixpath.join (tempdir st)
               ("tmp-simulator-" +:+ user st +:+ "-" +:+ name)
    /\ fs st !! FS.key st tmp = None
    /\ fs st' !! FS.key st tmp = Some Dir
    /\ worDir = posixpath.join tmp dirNam
    /\ Str.contains "tmp-simulator-" (fst (posixpath.split worDir)) = true
    /\ (Str.contains "/" name = false -> fst (posixpath.split worDir) = tmp)
    /\ forall s,
         _deleteTemporaryDirectory (Some worDir) s
         = delete_tree worDir (fst (posixpath.split worDir)) s.
Proof.
  unfold _create_worDir, bind at 1, gets at 1.
  destruct (_packagePath (this st)) as [pkg |] eqn:Hp; [| discriminate].
  unfold bind at 1, gets at 1.
  destruct (split_last "/" (posixpath.abspath (cwd st) pkg))
    as (dirNam & Hl & Hc & _).
  pose proof Hl as Hl'. rewrite last_lookup in Hl'.
  replace (length _ - 1)%nat
    with (pred (length (Str.split "/" (posixpath.abspath (cwd st) pkg))))
    by lia.
  rewrite Hl'. unfold bind at 1, gets at 1.
  intros H. bind_inv H. injection H as <- <-.
  unfold FS.mkdtemp, bind, gets in H0.
  apply mkdtemp_loop_Ok in H0 as (name & rest & Hin & Ha & Hn & ->).
  exists pkg, dirNam, name, a.
  rewrite !str_app_assoc in Ha.
  assert (Hsplit :
    Str.contains ("tmp-simulator-" +:+ user st +:+ "-")
      (fst (posixpath.split (posixpath.join a dirNam))) = true
    /\ (Str.contains "/" name = false ->
        fst (posixpath.split (posixpath.join a dirNam)) = a)).
  { destruct (join_relative (tempdir st)
                ("tmp-simulator-" +:+ user st +:+ "-" +:+ name))
      as [Hj | [Hj _]]; [reflexivity | |]; rewrite Hj in Ha; subst a.
    - pose proof (split_join_temporary (tempdir st +:+ "/")
                    ("tmp-simulator-" +:+ user st) name dirNam Hc) as Hs.
      cbv zeta in Hs. rewrite ?str_app_assoc in Hs.
      rewrite ?str_app_assoc. exact Hs.
    - pose proof (split_join_temporary (tempdir st)
                    ("tmp-simulator-" +:+ user st) name dirNam Hc) as Hs.
      cbv zeta in Hs. rewrite ?str_app_assoc in Hs.
      rewrite ?str_app_assoc. exact Hs. }
  destruct Hsplit as [Hcont Hpar].
  assert (Hmark : Str.contains "tmp-simulator-"
                    (fst (posixpath.split (posixpath.join a dirNam))) = true).
  { eapply contains_prefix with (b := user st +:+ "-"). exact Hcont. }
  repeat split; auto.
  - cbn. apply lookup_insert_eq.
  - intros s. now apply delete_with_marker.
Qed.


(** ** The command file *)

Lemma fold_left_lines (l : list string) (s : string) :
  fold_left (fun s x => s +:+ x +:+ nl) l s = s +:+ lines l.
Proof.
  revert s. induction l as [| x l IH]; intros s; simpl.
  - now rewrite str_app_nil_r.
  - rewrite IH. now rewrite !str_app_assoc.
Qed.

(** When the three attributes it reads are set, [_get_dymola_commands]
    returns the script in the fixed order and changes nothing. *)
Lemma get_dymola_commands_script (working_directory log_file
    model_name : string) (translate_only : bool) (st : state)
    (pre post : list string) (ex : bool) :
  _preProcessing_ (this st) = Some pre ->
  _postProcessing_ (this st) = Some post ->
  _exitSimulator (this st) = Some ex ->
  _get_dymola_commands E working_directory log_file model_name
    translate_only st
  = (Ok (script_head working_directory log_file
         +:+ lines pre
         +:+ "modelInstance=" +:+ model_name +:+ ";" +:+ nl
         +:+ (if translate_only
              then "translateModel(modelInstance);" +:+ nl
              else script_simulate E (_simulator_ (this st)))
         +:+ lines post
         +:+ "savelog(" +:+ dq +:+ log_file +:+ dq +:+ ");" +:+ nl
         +:+ (if ex then "Modelica.Utilities.System.exit();" +:+ nl
              else "")),
     st).
Proof.
  intros Hpre Hpost Hex.
  unfold _get_dymola_commands, getattr, bind, gets, ret.
  rewrite Hpre. destruct translate_only; rewrite Hpost, Hex;
    rewrite !fold_left_lines; destruct ex;
    now rewrite ?str_app_assoc, ?str_app_nil_r.
Qed.

(** The statements are kept in the order in which they were added. *)
Lemma addPreProcessingStatement_appends (command : string) (st : state)
    (pre : list string) :
  _preProcessing_ (this st) = Some pre ->
  exists st', addPreProcessingStatement command st = (Ok tt, st')
              /\ _preProcessing_ (this st') = Some (pre ++ [command])%list.
Proof.
  intros H. unfold addPreProcessingStatement, getattr, bind, gets.
  rewrite H. eexists. split; reflexivity.
Qed.

Lemma addPostProcessingStatement_appends (command : string) (st : state)
    (post : list string) :
  _postProcessing_ (this st) = Some post ->
  exists st', addPostProcessingStatement command st = (Ok tt, st')
              /\ _postProcessing_ (this st') = Some (post ++ [command])%list.
Proof.
  intros H. unfold addPostProcessingStatement, getattr, bind, gets.
  rewrite H. eexists. split; reflexivity.
Qed.

(** Without [_exitSimulator] the method raises. *)
Lemma get_dymola_commands_no_exitSimulator (working_directory log_file
    model_name : string) (translate_only : bool) (st : state)
    (pre post : list string) :
  _preProcessing_ (this st) = Some pre ->
  _postProcessing_ (this st) = Some post ->
  _exitSimulator (this st) = None ->
  _get_dymola_commands E working_directory log_file model_name
    translate_only st
  = (Raise (Exn AttributeError
              "'object has no attribute '_exitSimulator'"), st).
Proof.
  intros Hpre Hpost Hex.
  unfold _get_dymola_commands, getattr, bind, gets, ret, raise.
  rewrite Hpre. destruct translate_only; now rewrite Hpost, Hex.
Qed.

(** [Dymola.__init__] leaves [_exitSimulator] as it finds it: it assigns
    the attribute nowhere. *)
Lemma Dymola_init_tail_exitSimulator (modelName : string) (st st' : state) r :
  Dymola_init_tail modelName st = (r, st') ->
  _exitSimulator (this st') = _exitSimulator (this st).
Proof.
  unfold Dymola_init_tail.
  destruct (setResultFile_eq modelName st) as (r0 & Hl & _).
  rewrite Hl. unfold setResultFile.
  destruct (split_last "." r0) as (r1 & Hl1 & _).
  rewrite last_lookup in Hl1.
  replace (length (Str.split "." r0) - 1)%nat
    with (pred (length (Str.split "." r0))) by lia.
  rewrite Hl1. cbn. intros [= <- <-]. reflexivity.
Qed.

(** ** The external command *)

Lemma startswith_length (p s : string) :
  Str.startswith p s = true -> (String.length p <= String.length s)%nat.
Proof.
  intros H. apply startswith_inv in H as [t ->].
  rewrite str_length_app. lia.
Qed.

Lemma replace_go_short (old new r : string) :
  (String.length r < String.length old)%nat ->
  Str.replace_go old new 0 r = r.
Proof.
  induction r as [| b r IH]; [reflexivity |]. intros Hlen.
  cbn [Str.replace_go].
  destruct (Str.startswith old (String b r)) eqn:Hs.
  - apply startswith_length in Hs. lia.
  - rewrite IH; [reflexivity | simpl in Hlen; lia].
Qed.

Lemma replace_go_skip (old new x r : string) :
  Str.replace_go old new (String.length x) (x +:+ r)
  = Str.replace_go old new 0 r.
Proof. induction x as [| a x IH]; [reflexivity | exact IH]. Qed.

(** [replace] puts ["."] for a prefix [directory] when what follows is
    too short to hold [directory] again. *)
Lemma replace_prefix (directory rest : string) :
  directory <> "" ->
  (String.length rest < String.length directory)%nat ->
  Str.replace directory "." (directory +:+ rest) = "." +:+ rest.
Proof.
  intros Hne Hlen. destruct directory as [| a d]; [contradiction |].
  unfold Str.replace.
  change (String a d +:+ rest) with (String a (d +:+ rest)).
  cbn [Str.replace_go].
  change (String a (d +:+ rest)) with (String a d +:+ rest).
  rewrite startswith_app.
  replace (String.length (String a d) - 1)%nat with (String.length d)
    by (simpl; lia).
  rewrite replace_go_skip, replace_go_short by exact Hlen. reflexivity.
Qed.

(** Statements that preserve a property of the object. *)
Lemma keeps_preserves {A} (P : obj -> Prop) (m : M A) :
  keeps_this m -> preserves P m.
Proof. intros Hk s r s' H HP. now rewrite (Hk _ _ _ H). Qed.

Lemma preserves_bind {A B} (P : obj -> Prop) (m : M A) (k : A -> M B) :
  preserves P m -> (forall a, preserves P (k a)) -> preserves P (bind m k).
Proof.
  intros Hm Hk s r s'. unfold bind.
  destruct (m s) as [[a | e] s1] eqn:H1.
  - intros H2 HP. eapply Hk; [exact H2 |]. eapply Hm; eauto.
  - intros [= <- <-] HP. eapply Hm; eauto.
Qed.

Lemma preserves_set_obj (P : obj -> Prop) (f : obj -> obj) :
  (forall o, P o -> P (f o)) -> preserves P (set_obj f).
Proof. intros Hf s r s' [= <- <-]. apply Hf. Qed.

Lemma preserves_update_simulator (k : string) (v : pyval) :
  preserves Dymola_invariant (update_simulator k v).
Proof. intros s r s' [= <- <-]. auto. Qed.

Lemma preserves_setResultFile (resultFile : string) :
  preserves Dymola_invariant (setResultFile resultFile).
Proof.
  unfold setResultFile. destruct (_ !! _).
  - apply preserves_update_simulator.
  - apply keeps_preserves, keeps_raise.
Qed.

Lemma preserves_do_call (c : Dymola_call) :
  preserves Dymola_invariant (do_call c).
Proof.
  destruct c; cbn [do_call];
    try apply preserves_update_simulator;
    try apply preserves_setResultFile.
  - unfold addPreProcessingStatement, getattr.
    apply preserves_bind; [apply keeps_preserves; keeps |]. intros l.
    apply preserves_set_obj. auto.
  - unfold addPostProcessingStatement, getattr.
    apply preserves_bind; [apply keeps_preserves; keeps |]. intros l.
    apply preserves_set_obj. auto.
  - unfold addModelModifier, getattr.
    apply preserves_bind; [apply keeps_preserves; keeps |]. intros l.
    apply preserves_set_obj. auto.
  - apply preserves_set_obj. auto.
  - apply preserves_set_obj. auto.
  - apply preserves_set_obj. intros o [H1 _]. split; [exact H1 | eauto].
  - unfold setOutputDirectory.
    apply preserves_bind; [| intros ?; apply keeps_preserves; keeps].
    apply preserves_bind; [apply preserves_set_obj; auto |].
    intros ?. apply keeps_preserves; keeps.
  - unfold setPackagePath.
    apply preserves_bind; [apply keeps_preserves; keeps |]. intros ex.
    destruct (negb ex); [apply keeps_preserves; keeps |].
    apply preserves_bind; [apply keeps_preserves; unfold FS.isdir; keeps |].
    intros isd. destruct (negb isd); [apply keeps_preserves; keeps |].
    apply preserves_set_obj. auto.
  - unfold deleteSimulateDirectory. apply keeps_preserves. keeps.
Qed.

Lemma Dymola_init_tail_invariant (modelName : string) (st st' : state) :
  Dymola_init_tail modelName st = (Ok tt, st') ->
  Dymola_invariant (this st').
Proof.
  unfold Dymola_init_tail. intros H.
  do 5 bind_inv H. bind_inv H. bind_inv H.
  injection H as <-. injection H6 as <- <-. split; cbn; eauto.
Qed.

Lemma Dymola_object_invariant (st : state) :
  Dymola_object st -> Dymola_invariant (this st).
Proof.
  induction 1 as [m s s' H | c s r s' _ IH H | s s' _ IH H].
  - eapply Dymola_init_tail_invariant, H.
  - eapply preserves_do_call; eauto.
  - now rewrite H.
Qed.

(** The command of [Dymola._runSimulation] when the script lies in the
    working directory. *)
Lemma Dymola__runSimulation_cmd (st : state) (directory rest : string)
    (timeout : pyval) :
  Dymola_invariant (this st) ->
  directory <> "" ->
  (String.length rest < String.length directory)%nat ->
  exists show : bool,
    _showGUI (this st) = Some show
    /\ Dymola__runSimulation E (directory +:+ rest) timeout directory st
       = super__runSimulation E
           (PyStr "dymola" :: PyStr ("." +:+ rest)
            :: (if show then [] else [PyStr "/nowindow"]))
           timeout directory None st.
Proof.
  intros [Hexe [show Hshow]] Hne Hlen. exists show. split; [exact Hshow |].
  unfold Dymola__runSimulation, getattr, bind, gets, ret.
  rewrite Hshow, Hexe. unfold Dymola_cmd.
  rewrite replace_prefix by assumption. now destruct show.
Qed.

Lemma join_length (a b : string) :
  Str.startswith "/" b = false ->
  (String.length a + String.length b
   <= String.length (posixpath.join a b))%nat.
Proof.
  intros Hb.
  destruct (join_relative a b Hb) as [-> | [-> _]];
    rewrite !str_length_app; simpl; lia.
Qed.

(** A working directory made by [_create_worDir] is longer than the name
    of the script. *)
Lemma create_worDir_length (st st' : state) (worDir : string) :
  _create_worDir st = (Ok worDir, st') ->
  (14 <= String.length worDir)%nat.
Proof.
  intros H.
  apply create_worDir_parts
    in H as (pkg & dirNam & name & tmp & _ & Hl & _ & -> & _ & _ & -> & _).
  destruct (split_last "/" (posixpath.abspath (cwd st) pkg))
    as (r & Hl' & Hc & _).
  rewrite Hl in Hl'. injection Hl' as <-.
  pose proof (join_length
    (posixpath.join (tempdir st)
       ("tmp-simulator-" +:+ user st +:+ "-" +:+ name)) dirNam
    (startswith_slash_contains _ Hc)) as H1.
  pose proof (join_length (tempdir st)
    ("tmp-simulator-" +:+ user st +:+ "-" +:+ name) eq_refl) as H2.
  rewrite (str_length_app "tmp-simulator-") in H2.
  change (String.length "tmp-simulator-") with 14%nat in H2. lia.
Qed.


(** ** The [try] statement of [simulate] *)

(** The deleting branch removes the parent directory with all beneath it
    when the working directory is there. *)
Lemma delete_tree_removes (worDir dirNam : string) (st : state) :
  is_Some (fs st !! FS.key st worDir) ->
  fs st !! FS.key st dirNam = Some Dir ->
  delete_tree worDir dirNam st
  = (Ok tt,
     with_fs (filter (fun kn => FS.under (FS.key st dirNam) (fst kn) = false)
                (fs st)) st).
Proof.
  intros Hw Hd.
  unfold delete_tree, try_except, bind, FS.exists_, gets, FS.rmtree, get.
  rewrite bool_decide_eq_true_2 by exact Hw. unfold bind. cbv beta iota.
  now rewrite Hd.
Qed.

Lemma under_removed (d k : string) (m : gmap string node) :
  FS.under d k = true ->
  filter (fun kn : string * node => FS.under d (fst kn) = false) m !! k
  = None.
Proof.
  intros H. apply map_lookup_filter_None. right. intros n _. simpl.
  now rewrite H.
Qed.

(** A [try] block that runs [steps], deletes the temporary directory and
    reports every [Exception]. *)
Lemma try_block_outcome (steps : M unit) (worDir : string) (st : state) :
  let block :=
    try_except (steps ;; _deleteTemporaryDirectory (Some worDir))
      is_Exception (fun e => writeError (simulation_failed worDir e)) in
  match steps st with
  | (Ok _, s1) =>
      block st = (Ok tt, snd (_deleteTemporaryDirectory (Some worDir) s1))
  | (Raise e, s1) =>
      if is_Exception e
      then block st
           = (Ok tt,
              with_errors (errors s1 ++ [simulation_failed worDir e]) s1)
      else block st = (Raise e, s1)
  end.
Proof.
  intros block. subst block. unfold try_except, bind.
  destruct (steps st) as [[[] | e] s1].
  - pose proof (_deleteTemporaryDirectory_returns (Some worDir) s1) as Hr.
    destruct (_deleteTemporaryDirectory (Some worDir) s1) as [r s2].
    simpl in Hr. now subst r.
  - now destruct (is_Exception e).
Qed.


(** ** The copy of the package *)

Lemma startswith_drop (p k : string) :
  Str.startswith p k = true -> k = p +:+ Str.drop (String.length p) k.
Proof.
  revert k. induction p as [| a p IH]; intros k H; [reflexivity |].
  destruct k as [| b k]; [discriminate |].
  cbn [Str.startswith] in H. apply andb_true_iff in H as [Hab H].
  apply Ascii.eqb_eq in Hab as ->. cbn. f_equal. now apply IH.
Qed.

Lemma relative_inv (d k rel : string) :
  FS.relative d k = Some rel -> rel <> "" -> k = stem d +:+ rel.
Proof.
  unfold FS.relative, stem. destruct (Str.eqb k d); [now intros [= <-] |].
  destruct (Str.eqb d "/").
  - destruct (Str.startswith "/" k) eqn:Hs; [| discriminate].
    intros [= <-] _. now apply (startswith_drop "/").
  - destruct (Str.startswith (d +:+ "/") k) eqn:Hs; [| discriminate].
    intros [= <-] _. apply startswith_drop in Hs.
    rewrite str_length_app in Hs. simpl in Hs. exact Hs.
Qed.

(** A relative path of a tidy tree does not start with ["/"]. *)
Lemma relative_not_absolute (d k rel : string) :
  FS.relative d k = Some rel -> rel <> "" ->
  Str.contains "//" k = false -> Str.startswith "/" rel = false.
Proof.
  intros Hr Hne Ht. apply relative_inv in Hr; [| exact Hne]. subst k.
  destruct (Str.startswith "/" rel) eqn:Hs; [| reflexivity].
  apply startswith_inv in Hs as [t ->].
  assert (Hc : exists x, stem d = x +:+ "/").
  { unfold stem. destruct (Str.eqb d "/"); [now exists "" | now exists d]. }
  destruct Hc as [x Hx]. rewrite Hx in Ht.
  replace ((x +:+ "/") +:+ "/" +:+ t) with (x +:+ "//" +:+ t) in Ht
    by now rewrite !str_app_assoc.
  now rewrite contains_app in Ht.
Qed.

Lemma join_inj (a b1 b2 : string) :
  Str.startswith "/" b1 = false -> Str.startswith "/" b2 = false ->
  posixpath.join a b1 = posixpath.join a b2 -> b1 = b2.
Proof.
  unfold posixpath.join. intros -> ->.
  destruct (Str.eqb a "" || Str.endswith "/" a); intros H.
  - now apply String.app_inj in H.
  - apply String.app_inj in H. now apply (String.app_inj "/") in H.
Qed.

(** Every entry beneath the source that is not left out is found beneath
    the destination once the tree has been folded over. *)
Lemma copy_fold_lookup (patterns : list string) (ksrc kdst : string)
    (m0 m : gmap string node) :
  tidy m ->
  forall k n rel,
    m !! k = Some n -> FS.relative ksrc k = Some rel -> rel <> "" ->
    FS.ignored patterns rel = false ->
    map_fold (FS.copy_entry patterns ksrc kdst) m0 m !! posixpath.join kdst rel
    = Some n.
Proof.
  unfold tidy.
  apply (map_fold_weak_ind
           (fun r m =>
              map_Forall (fun k _ => Str.contains "//" k = false) m ->
              forall k n rel,
                m !! k = Some n -> FS.relative ksrc k = Some rel ->
                rel <> "" -> FS.ignored patterns rel = false ->
                r !! posixpath.join kdst rel = Some n)).
  - intros _ k n rel H. now rewrite lookup_empty in H.
  - intros i x m' r Hi IH Ht k n rel Hk Hrel Hne Hig.
    apply map_Forall_insert in Ht as [Hti Htm]; [| exact Hi].
    destruct (decide (k = i)) as [-> | Hki].
    + rewrite lookup_insert_eq in Hk. injection Hk as ->.
      unfold FS.copy_entry. rewrite Hrel.
      destruct rel as [| c rel]; [contradiction |].
      rewrite Hig. apply lookup_insert_eq.
    + rewrite lookup_insert_ne in Hk by congruence.
      specialize (IH Htm k n rel Hk Hrel Hne Hig).
      unfold FS.copy_entry.
      destruct (FS.relative ksrc i) as [[| c reli] |] eqn:Hri; auto.
      destruct (FS.ignored patterns (String c reli)); auto.
      rewrite lookup_insert_ne; [exact IH |].
      intros Heq. apply Hki.
      pose proof (map_Forall_lookup_1 _ _ _ _ Htm Hk) as Htk. cbv beta in Htk.
      apply join_inj in Heq.
      * apply relative_inv in Hri; [| discriminate].
        apply relative_inv in Hrel; [| exact Hne]. congruence.
      * eapply relative_not_absolute; eauto.
      * eapply relative_not_absolute; eauto.
Qed.

Tactic Notation "bind_inv_as" hyp(H) "as" ident(a) ident(s) ident(H1) :=
  apply bind_Ok in H; destruct H as (a & s & H1 & H).

Lemma makedirs_Ok (p : string) (s s' : state) :
  FS.makedirs p s = (Ok tt, s') ->
  fs s !! FS.key s p = None /\ exists m0, s' = with_fs m0 s.
Proof.
  unfold FS.makedirs, bind, get, modify, raise.
  destruct (fs s !! FS.key s p); [discriminate |].
  destruct (existsb _ _); [discriminate |].
  intros [= <-]. eauto.
Qed.

Lemma copytree_Ok (src dst : string) (patterns : list string)
    (s s' : state) :
  FS.copytree src dst patterns s = (Ok tt, s') ->
  fs s !! FS.key s src = Some Dir
  /\ fs s !! FS.key s dst = None
  /\ exists m0,
       s' = with_fs
              (map_fold
                 (FS.copy_entry patterns (FS.key s src) (FS.key s dst))
                 m0 (fs s)) s.
Proof.
  unfold FS.copytree, bind at 1, get at 1. cbv beta iota zeta.
  destruct (fs s !! FS.key s src) as [[| c] |]; try discriminate.
  intros H. bind_inv H. destruct a. injection H as <-.
  apply makedirs_Ok in H0 as [Hn [m0 ->]].
  repeat split; auto. exists m0. reflexivity.
Qed.

Lemma package_abspath_Ok (src : string) (s s' : state) :
  package_abspath s = (Ok src, s') ->
  s' = s /\ exists pkg, _packagePath (this s) = Some pkg
                        /\ src = posixpath.abspath (cwd s) pkg.
Proof.
  unfold package_abspath, bind, gets.
  destruct (_packagePath (this s)) as [pkg |]; [| discriminate].
  intros [= <- <-]. eauto.
Qed.

Lemma create_worDir_state (s s' : state) (worDir : string) :
  _create_worDir s = (Ok worDir, s') -> this s' = this s /\ cwd s' = cwd s.
Proof.
  intros H. pose proof H as H'.
  apply create_worDir_parts in H as (pkg & dirNam & name & tmp & _).
  unfold _create_worDir, bind at 1, gets at 1 in H'.
  destruct (_packagePath (this s)); [| discriminate].
  unfold bind at 1, gets at 1 in H'.
  destruct (_ !! _); [| discriminate].
  unfold bind at 1, gets at 1 in H'.
  bind_inv H'. injection H' as <- <-.
  unfold FS.mkdtemp, bind, gets in H.
  apply mkdtemp_loop_Ok in H as (? & ? & _ & _ & _ & ->). auto.
Qed.


(** ** Further properties of [_BaseSimulator] *)


Lemma update_simulator_on (k : string) (v : pyval) (m : gmap string pyval)
    (st : state) :
  update_simulator k v (with_this (set__simulator_ m (this st)) st)
  = (Ok tt, with_this (set__simulator_ (<[k := v]> m) (this st)) st).
Proof. destruct st as [o]. destruct o. reflexivity. Qed.

Lemma settings_commute (t0 t1 eps solver sec : pyval)
    (m : gmap string pyval) :
  <["timeout" := sec]> (<["solver" := solver]> (<["eps" := eps]>
    (<["t1" := t1]> (<["t0" := t0]> m))))
  = <["t0" := t0]> (<["t1" := t1]> (<["eps" := eps]>
      (<["solver" := solver]> (<["timeout" := sec]> m)))).
Proof.
  apply map_eq. intros k.
  repeat (rewrite lookup_insert; case_decide; subst; try reflexivity;
          try congruence).
Qed.

Lemma update_simulator_five (k1 k2 k3 k4 k5 : string)
    (v1 v2 v3 v4 v5 : pyval) (st : state) :
  (update_simulator k1 v1 ;; update_simulator k2 v2 ;;
   update_simulator k3 v3 ;; update_simulator k4 v4 ;;
   update_simulator k5 v5) st
  = (Ok tt,
     with_this
       (set__simulator_
          (<[k5 := v5]> (<[k4 := v4]> (<[k3 := v3]> (<[k2 := v2]>
             (<[k1 := v1]> (_simulator_ (this st)))))))
          (this st)) st).
Proof.
  rewrite (bind_eq_Ok _ _ _ _ _ (update_simulator_eq _ _ _)).
  repeat rewrite (bind_eq_Ok _ _ _ _ _ (update_simulator_on _ _ _ _)).
  apply update_simulator_on.
Qed.

Lemma update_simulator_twice (k : string) (v w : pyval) (st : state) :
  (update_simulator k v ;; update_simulator k w) st = update_simulator k w st.
Proof.
  rewrite (bind_eq_Ok _ _ _ _ _ (update_simulator_eq _ _ _)).
  rewrite update_simulator_on, update_simulator_eq.
  now rewrite insert_insert_eq.
Qed.

(** The order in which different settings are given does not matter, and
    of two values given to one setting the later one stays. *)
Theorem settings_order (t0 t1 eps solver sec v : pyval) (st : state) :
  (setStartTime t0 ;; setStopTime t1 ;; setTolerance eps ;;
   setSolver solver ;; setTimeOut sec) st
  = (setTimeOut sec ;; setSolver solver ;; setTolerance eps ;;
     setStopTime t1 ;; setStartTime t0) st
  /\ (setStartTime v ;; setStartTime t0) st = setStartTime t0 st
  /\ (setStopTime v ;; setStopTime t1) st = setStopTime t1 st
  /\ (setTolerance v ;; setTolerance eps) st = setTolerance eps st
  /\ (setSolver v ;; setSolver solver) st = setSolver solver st
  /\ (setTimeOut v ;; setTimeOut sec) st = setTimeOut sec st.
Proof.
  unfold setStartTime, setStopTime, setTolerance, setSolver, setTimeOut.
  repeat split; try apply update_simulator_twice.
  rewrite !update_simulator_five. do 3 f_equal. apply settings_commute.
Qed.

(** [setOutputDirectory] stores whatever string it is given, the empty one
    included, which [getOutputDirectory] then returns; unlike the
    constructor it neither checks the name nor makes the directory: the
    file tree stays as it is, while [_createDirectory], which the
    constructor runs on its argument, raises [ValueError] on the empty
    name. *)
Theorem setOutputDirectory_unchecked (d : string) (st : state) :
  (setOutputDirectory d ;; getOutputDirectory) st
  = (Ok d, with_this (set__outputDir_ d (this st)) st)
  /\ fs (snd (setOutputDirectory d st)) = fs st
  /\ setOutputDirectory "" st
     = (Ok "", with_this (set__outputDir_ "" (this st)) st)
  /\ exists msg, _createDirectory "" st = (Raise (Exn ValueError msg), st).
Proof. repeat split. eexists. reflexivity. Qed.

(** Making directories adds directories and nothing else. *)
Lemma makedirs_fold (l : list string) (m : gmap string node) :
  let m' := fold_left (fun m a => match m !! a with
                                  | None => <[a := Dir]> m
                                  | Some _ => m
                                  end) l m in
  (forall k n, m !! k = Some n -> m' !! k = Some n)
  /\ (forall k n, m' !! k = Some n -> m !! k = Some n \/ n = Dir).
Proof.
  revert m. induction l as [| a l IH]; intros m; cbn; [auto |].
  destruct (m !! a) as [x |] eqn:Ha; [apply IH |].
  destruct (IH (<[a := Dir]> m)) as [IH1 IH2]. cbv zeta in IH1, IH2.
  split.
  - intros k n Hk. apply IH1. rewrite lookup_insert_ne; [exact Hk |].
    intros ->. congruence.
  - intros k n Hk. apply IH2 in Hk as [Hk | Hk]; [| now right].
    rewrite lookup_insert in Hk. case_decide; [right | left]; congruence.
Qed.

Lemma makedirs_effect (p : string) (s s' : state) :
  FS.makedirs p s = (Ok tt, s') ->
  fs s !! FS.key s p = None
  /\ fs s' !! FS.key s p = Some Dir
  /\ (forall k n, fs s !! k = Some n -> fs s' !! k = Some n)
  /\ (forall k n, fs s' !! k = Some n -> fs s !! k = Some n \/ n = Dir)
  /\ s' = with_fs (fs s') s.
Proof.
  unfold FS.makedirs, bind, get, modify, raise.
  destruct (fs s !! FS.key s p) eqn:Hk; [discriminate |].
  destruct (existsb _ _); [discriminate |].
  intros [= <-]. cbn [fs with_fs].
  destruct (makedirs_fold (FS.ancestors (FS.key s p))
              (<[FS.key s p := Dir]> (fs s))) as [H1 H2].
  cbv zeta in H1, H2.
  split; [reflexivity |]. split; [apply H1, lookup_insert_eq |].
  split; [| split; [| reflexivity]].
  - intros k n Hkn. apply H1. rewrite lookup_insert_ne; [exact Hkn |].
    intros <-. congruence.
  - intros k n Hkn. apply H2 in Hkn as [Hkn | Hkn]; [| now right].
    rewrite lookup_insert in Hkn. case_decide; [right | left]; congruence.
Qed.



(** One round of the loop of [_deleteFiles]. *)
Lemma _deleteFiles_step (fil : string) (s : state) :
  exists s',
    try_except
      (ex <- FS.exists_ fil ;; if ex then FS.remove fil else ret tt)
      is_OSError
      (fun e => writeError
                  ("Failed to delete '" +:+ fil +:+ "' : " +:+ exn_msg e)) s
    = (Ok tt, s')
    /\ this s' = this s /\ cwd s' = cwd s
    /\ (forall k, k <> FS.key s fil -> fs s' !! k = fs s !! k)
    /\ (forall c, fs s' !! FS.key s fil <> Some (File c))
    /\ (forall k n, fs s' !! k = Some n -> fs s !! k = Some n).
Proof.
  unfold try_except, bind, FS.exists_, gets, FS.remove, get, modify, raise,
    ret, writeError.
  destruct (fs s !! FS.key s fil) as [[| c] |] eqn:Hk; cbn.
  - rewrite Hk. cbn. eexists. split; [reflexivity |]. cbn.
    repeat split; auto. intros c. congruence.
  - rewrite Hk. eexists. split; [reflexivity |]. cbn.
    repeat split; auto.
    + intros k Hne. now apply lookup_delete_ne.
    + intros c'. rewrite lookup_delete_eq. discriminate.
    + intros k n Hkn. rewrite lookup_delete in Hkn.
      case_decide; [discriminate | exact Hkn].
  - eexists. split; [reflexivity |]. repeat split; auto.
    intros c. congruence.
Qed.

Lemma _deleteFiles_shrinks (fileList : list string) (st : state) :
  exists st',
    _deleteFiles fileList st = (Ok tt, st')
    /\ cwd st' = cwd st
    /\ (forall k n, fs st' !! k = Some n -> fs st !! k = Some n).
Proof.
  unfold _deleteFiles. revert st.
  induction fileList as [| fil l IH]; intros st; cbn [for_each].
  - exists st. auto.
  - destruct (_deleteFiles_step fil st)
      as (s1 & Hstep & _ & Hcwd & _ & _ & Hsub).
    destruct (IH s1) as (s2 & Hrest & Hcwd2 & Hsub2).
    exists s2. unfold bind at 1. rewrite Hstep.
    split; [exact Hrest |]. split; [congruence |].
    intros k n Hk. apply Hsub, Hsub2, Hk.
Qed.


(** ** Further properties of the working directory *)

(** What [_create_worDir] changes: one directory is added to the file tree,
    and names are used up. *)
Lemma create_worDir_inv (s s' : state) (w : string) :
  _create_worDir s = (Ok w, s') ->
  exists pkg d tmp,
    _packagePath (this s) = Some pkg
    /\ last (Str.split "/" (posixpath.abspath (cwd s) pkg)) = Some d
    /\ w = posixpath.join tmp d
    /\ fs s !! FS.key s tmp = None
    /\ fs s' = <[FS.key s tmp := Dir]> (fs s)
    /\ this s' = this s /\ cwd s' = cwd s /\ errors s' = errors s.
Proof.
  unfold _create_worDir, bind at 1, gets at 1.
  destruct (_packagePath (this s)) as [pkg |] eqn:Hp; [| discriminate].
  unfold bind at 1, gets at 1.
  destruct (split_last "/" (posixpath.abspath (cwd s) pkg))
    as (d & Hl & _).
  pose proof Hl as Hl'. rewrite last_lookup in Hl'.
  replace (length _ - 1)%nat
    with (pred (length (Str.split "/" (posixpath.abspath (cwd s) pkg))))
    by lia.
  rewrite Hl'. unfold bind at 1, gets at 1.
  intros H. apply bind_Ok in H as (tmp & s1 & Hmk & Hret).
  injection Hret as <- <-.
  unfold FS.mkdtemp, bind, gets in Hmk.
  apply mkdtemp_loop_Ok in Hmk as (name & rest & _ & _ & Hn & ->).
  exists pkg, d, tmp. repeat split; auto.
Qed.

(** Two calls of [_create_worDir] make two temporary directories, both
    absent before and both there afterwards: a run never works in the
    directory of another one. *)
Theorem create_worDir_twice (st st1 st2 : state) (w1 w2 : string) :
  _create_worDir st = (Ok w1, st1) ->
  _create_worDir st1 = (Ok w2, st2) ->
  exists tmp1 tmp2 d,
    w1 = posixpath.join tmp1 d /\ w2 = posixpath.join tmp2 d
    /\ FS.key st tmp1 <> FS.key st tmp2
    /\ fs st !! FS.key st tmp1 = None /\ fs st !! FS.key st tmp2 = None
    /\ fs st2 !! FS.key st tmp1 = Some Dir
    /\ fs st2 !! FS.key st tmp2 = Some Dir.
Proof.
  intros H1 H2.
  apply create_worDir_inv in H1
    as (pkg1 & d1 & tmp1 & Hp1 & Hl1 & -> & Hn1 & Hfs1 & Hthis & Hcwd & _).
  apply create_worDir_inv in H2
    as (pkg2 & d2 & tmp2 & Hp2 & Hl2 & -> & Hn2 & Hfs2 & _).
  assert (Hkey : FS.key st1 tmp2 = FS.key st tmp2).
  { unfold FS.key. now rewrite Hcwd. }
  rewrite Hkey in Hn2, Hfs2.
  rewrite Hthis, Hp1 in Hp2. injection Hp2 as <-.
  rewrite Hcwd, Hl1 in Hl2. injection Hl2 as <-.
  assert (Hne : FS.key st tmp1 <> FS.key st tmp2).
  { intros Heq. rewrite Hfs1, <- Heq, lookup_insert_eq in Hn2. discriminate. }
  exists tmp1, tmp2, d1. repeat split; auto.
  - rewrite Hfs1, lookup_insert_ne in Hn2 by exact Hne. exact Hn2.
  - rewrite Hfs2, lookup_insert_ne, Hfs1 by congruence. apply lookup_insert_eq.
  - rewrite Hfs2. apply lookup_insert_eq.
Qed.

(** When the working directory itself has not been made,
    [_deleteTemporaryDirectory] deletes nothing and says nothing: the
    temporary directory that [_create_worDir] made stays. *)
Theorem delete_skipped_without_worDir (st st' : state) (w : string) :
  _create_worDir st = (Ok w, st') ->
  fs st' !! FS.key st' w = None ->
  _deleteTemporaryDirectory (Some w) st' = (Ok tt, st')
  /\ exists tmp d, w = posixpath.join tmp d
                   /\ fs st' !! FS.key st tmp = Some Dir.
Proof.
  intros H Hw.
  apply create_worDir_parts in H
    as (pkg & d & name & tmp & _ & _ & _ & _ & _ & Hdir & -> & Hm & _).
  split.
  - rewrite delete_with_marker by exact Hm.
    unfold delete_tree, try_except, bind, FS.exists_, gets.
    rewrite bool_decide_eq_false_2; [reflexivity |].
    rewrite Hw. now intros [x Hx].
  - exists tmp, d. split; [reflexivity | exact Hdir].
Qed.


(** After [_BaseSimulator.__init__] the simulate directory is [None]. *)
Lemma base_init_simulateDir (modelName outputDirectory : string)
    (packagePath : option string) (st st' : state) :
  _BaseSimulator___init__ E modelName outputDirectory packagePath st
    = (Ok tt, st') ->
  _simulateDir_ (this st') = None /\ _MODELICA_EXE (this st') = None.
Proof.
  intros H. unfold _BaseSimulator___init__ in H.
  bind_inv_as H as u s1 H1. clear H1.
  bind_inv_as H as u1 s2 H2. clear H2.
  bind_inv_as H as u2 s3 H3. injection H3 as <- <-.
  bind_inv_as H as u3 s4 H4. injection H4 as <- <-.
  bind_inv_as H as u4 s5 H5. injection H5 as <- <-.
  bind_inv_as H as u5 s6 H6. injection H6 as <- <-.
  bind_inv_as H as u6 s7 H7. apply keeps__createDirectory in H7.
  bind_inv_as H as u7 s8 H8.
  destruct (setResultFile_eq modelName s7) as (r' & _ & Heq).
  rewrite Heq, update_simulator_eq in H8. injection H8 as <- <-.
  do 4 (bind_inv H; injection H0 as <- <-).
  bind_inv H. injection H0 as <- <-.
  apply foreign_this in H. rewrite H. cbn. rewrite H7. auto.
Qed.

(** The constructor leaves nothing for [deleteSimulateDirectory] to
    delete: called on an object on which no run has been started, the
    method changes nothing. *)
Theorem base_init_then_deleteSimulateDirectory (modelName
    outputDirectory : string) (packagePath : option string)
    (st st' : state) :
  _BaseSimulator___init__ E modelName outputDirectory packagePath st
    = (Ok tt, st') ->
  deleteSimulateDirectory st' = (Ok tt, st').
Proof.
  intros H. apply base_init_simulateDir in H as [H _].
  unfold deleteSimulateDirectory, bind, gets. now rewrite H.
Qed.

(** ** Further properties of the copy *)

Lemma join_startswith (a b : string) :
  Str.startswith "/" b = false -> Str.startswith a (posixpath.join a b) = true.
Proof.
  intros Hb. destruct (join_relative a b Hb) as [-> | [-> _]];
    apply startswith_app.
Qed.

(** The fold of [copytree] writes beneath the destination only. *)
Lemma copy_fold_outside (patterns : list string) (ksrc kdst : string)
    (m0 m : gmap string node) :
  tidy m ->
  forall k, Str.startswith kdst k = false ->
            map_fold (FS.copy_entry patterns ksrc kdst) m0 m !! k = m0 !! k.
Proof.
  unfold tidy.
  apply (map_fold_weak_ind
           (fun r m =>
              map_Forall (fun k _ => Str.contains "//" k = false) m ->
              forall k, Str.startswith kdst k = false -> r !! k = m0 !! k)).
  - reflexivity.
  - intros i x m' r Hi IH Ht k Hk.
    apply map_Forall_insert in Ht as [Hti Htm]; [| exact Hi].
    specialize (IH Htm k Hk). unfold FS.copy_entry.
    destruct (FS.relative ksrc i) as [[| c rel] |] eqn:Hri; auto.
    destruct (FS.ignored patterns (String c rel)); auto.
    rewrite lookup_insert_ne; [exact IH |].
    intros <-. rewrite join_startswith in Hk; [discriminate |].
    eapply relative_not_absolute; eauto.
Qed.

Lemma copytree_keeps_outside (src dst : string) (patterns : list string)
    (s s' : state) :
  FS.copytree src dst patterns s = (Ok tt, s') ->
  tidy (fs s) ->
  forall k n, fs s !! k = Some n ->
              Str.startswith (FS.key s dst) k = false ->
              fs s' !! k = Some n.
Proof.
  unfold FS.copytree, bind at 1, get at 1. cbv beta iota zeta.
  destruct (fs s !! FS.key s src) as [[| c] |]; try discriminate.
  intros H Ht k n Hk Hout.
  apply bind_Ok in H as (u & s1 & Hm & H). destruct u. injection H as <-.
  apply makedirs_effect in Hm as (_ & _ & Hkeep & _ & Hs1).
  rewrite Hs1. cbn [fs with_fs].
  change (FS.key (with_fs (fs s1) s) dst) with (FS.key s dst).
  rewrite copy_fold_outside by assumption. now apply Hkeep.
Qed.


Lemma mkdir_Ok (p : string) (s s' : state) :
  FS.mkdir p s = (Ok tt, s') ->
  s' = with_fs (<[FS.key s p := Dir]> (fs s)) s.
Proof.
  unfold FS.mkdir, bind, get, modify, raise.
  destruct (fs s !! FS.key s p); [discriminate |].
  destruct (fs s !! FS.parent (FS.key s p)) as [[| c] |]; try discriminate.
  now intros [= <-].
Qed.

(** [Optimica.simulate] copies nothing: when its first part returns, the
    working directory is there, it is recorded in [_simulateDir_], and
    every file of the file tree was there, with the same content, before
    the call; what is new are directories. *)
Theorem Optimica_simulate_mkdir_copies_nothing (st st' : state)
    (worDir : string) :
  Optimica_simulate_mkdir E st = (Ok worDir, st') ->
  is_Some (fs st' !! FS.key st worDir)
  /\ _simulateDir_ (this st') = Some worDir
  /\ (forall k n, fs st' !! k = Some n -> fs st !! k = Some n \/ n = Dir)
  /\ forall k c, fs st' !! k = Some (File c) -> fs st !! k = Some (File c).
Proof.
  intros H. unfold Optimica_simulate_mkdir in H.
  bind_inv_as H as u sa Hdel. destruct u.
  bind_inv_as H as w sb Hcreate.
  bind_inv_as H as ex sb1 Hex. injection Hex as <- <-.
  bind_inv_as H as u sb2 Hmk. destruct u.
  bind_inv_as H as u sb3 Hset. injection Hset as <- <-.
  injection H as <- <-.
  unfold Optimica_deleteOutputFiles, bind, gets in Hdel.
  destruct (_deleteFiles_shrinks
              [py_str E (dict_get (_simulator_ (this st)) "resultFile")
               +:+ ".mat"] st)
    as (sa' & Hdf & Hcwd & Hsub).
  rewrite Hdf in Hdel. injection Hdel as <-.
  apply create_worDir_inv in Hcreate
    as (_ & _ & tmp & _ & _ & _ & Hn & Hfs & _ & Hcwd' & _).
  assert (Hkey : FS.key sb w = FS.key st w).
  { unfold FS.key. now rewrite Hcwd', Hcwd. }
  assert (Hnew : forall k n, fs sb !! k = Some n ->
                             fs st !! k = Some n \/ n = Dir).
  { intros k n Hk. rewrite Hfs, lookup_insert in Hk.
    case_decide; [right; congruence | left; now apply Hsub]. }
  assert (Hall : is_Some (fs sb2 !! FS.key st w)
                 /\ forall k n, fs sb2 !! k = Some n ->
                                fs st !! k = Some n \/ n = Dir).
  { destruct (bool_decide (is_Some (fs sb !! FS.key sb w))) eqn:Hex;
      cbn [negb] in Hmk.
    - injection Hmk as <-. apply bool_decide_eq_true in Hex.
      rewrite Hkey in Hex. auto.
    - apply mkdir_Ok in Hmk as ->. cbn [fs with_fs]. rewrite Hkey. split.
      + rewrite lookup_insert_eq. eauto.
      + intros k n Hk. rewrite lookup_insert in Hk.
        case_decide; [right; congruence | now apply Hnew]. }
  destruct Hall as [Hthere Hsub2]. cbn.
  repeat split; auto.
  intros k c Hk. destruct (Hsub2 _ _ Hk) as [Hk' | Hk']; [exact Hk' |].
  discriminate.
Qed.

(** ** Further properties of the package path *)

Lemma setPackagePath_raises (p : string) (st : state) :
  (fs st !! FS.key st p = None ->
   setPackagePath p st
   = (Raise (Exn ValueError
               ("Argument packagePath=" +:+ p +:+ " does not exist.")),
      st))
  /\ (forall c, fs st !! FS.key st p = Some (File c) ->
      setPackagePath p st
      = (Raise (Exn ValueError
                  ("Argument packagePath=" +:+ p
                   +:+ " must be a directory "
                   +:+ "containing a Modelica package.")), st)).
Proof.
  unfold setPackagePath, bind, FS.exists_, FS.isdir, gets, raise.
  split.
  - intros H. rewrite H.
    rewrite bool_decide_eq_false_2; [reflexivity |]. now intros [x Hx].
  - intros c H. rewrite bool_decide_eq_true_2 by eauto. cbn. now rewrite H.
Qed.


(** The constructor checks the package path first: when it is not a
    directory, [ValueError] is raised before the output directory is made,
    and the file tree is as it was. *)
Theorem base_init_checks_package_first (modelName outputDirectory
    p : string) (st : state) :
  fs st !! FS.key st p <> Some Dir ->
  exists msg,
    _BaseSimulator___init__ E modelName outputDirectory (Some p) st
    = (Raise (Exn ValueError msg),
       with_this (set__packagePath None (this st)) st).
Proof.
  intros Hp. unfold _BaseSimulator___init__.
  unfold bind at 1, set_obj at 1, modify at 1.
  set (s0 := with_this (set__packagePath None (this st)) st).
  destruct (setPackagePath_raises p s0) as (Hnone & Hfile).
  change (fs s0) with (fs st) in *. change (FS.key s0 p) with (FS.key st p) in *.
  destruct (fs st !! FS.key st p) as [[| c] |] eqn:Hk.
  - contradiction.
  - eexists. unfold bind at 1. now rewrite (Hfile c eq_refl).
  - eexists. unfold bind at 1. now rewrite (Hnone eq_refl).
Qed.

(** ** Further properties of [Dymola] *)

Lemma split_without (c : ascii) (r : string) :
  Str.contains (String c "") r = false -> Str.split c r = [r].
Proof.
  induction r as [| a r IH]; [reflexivity |].
  intros H. apply contains_char_cons in H as [Ha Hr].
  cbn [Str.split]. now rewrite Ha, (IH Hr).
Qed.

(** The statements of [Dymola.__init__] that follow the call of the base
    constructor always run through: they give the lists of statements
    empty, set [t0=0], [t1=1], the solver [radau] and as result file the
    part of the model name after its last ["."], leave the other settings,
    name the program [dymola], switch the GUI off, and assign
    [_exitSimulator] nowhere; the file tree is not touched. *)
Theorem Dymola_init_tail_defaults (modelName : string) (st : state) :
  exists r st',
    Dymola_init_tail modelName st = (Ok tt, st')
    /\ last (Str.split "." modelName) = Some r
    /\ _simulator_ (this st')
       = <["solver" := PyStr "radau"]>
           (<["resultFile" := PyStr r]>
              (<["t1" := PyInt 1]>
                 (<["t0" := PyInt 0]> (_simulator_ (this st)))))
    /\ _preProcessing_ (this st') = Some []
    /\ _postProcessing_ (this st') = Some []
    /\ _MODELICA_EXE (this st') = Some "dymola"
    /\ _showGUI (this st') = Some false
    /\ _exitSimulator (this st') = _exitSimulator (this st)
    /\ fs st' = fs st /\ errors st' = errors st.
Proof.
  destruct (split_last "." modelName) as (r & Hl & Hc & _).
  exists r. unfold Dymola_init_tail. rewrite Hl.
  unfold setResultFile. rewrite (split_without "." r Hc).
  cbn. eexists. split; [reflexivity |]. cbn. repeat split; auto.
Qed.

(** The statements of [Optimica.__init__] that follow the call of the base
    constructor set the solver [CVode] and name the program
    [jm_ipython.sh]; the other settings stay. *)
Theorem Optimica_init_tail_defaults (st : state) :
  exists st',
    Optimica_init_tail st = (Ok tt, st')
    /\ _simulator_ (this st')
       = <["solver" := PyStr "CVode"]> (_simulator_ (this st))
    /\ _MODELICA_EXE (this st') = Some "jm_ipython.sh"
    /\ fs st' = fs st.
Proof. eexists. split; [reflexivity |]. cbn. auto. Qed.


(** [showGUI] decides on [/nowindow]: after [showGUI(show)] the command of
    a run has [/nowindow] exactly when [show] is false. *)
Theorem showGUI_decides_nowindow (st : state) (show : bool)
    (directory rest : string) (timeout : pyval) :
  Dymola_object st ->
  directory <> "" ->
  (String.length rest < String.length directory)%nat ->
  let st' := snd (showGUI show st) in
  Dymola__runSimulation E (directory +:+ rest) timeout directory st'
  = super__runSimulation E
      (PyStr "dymola" :: PyStr ("." +:+ rest)
       :: (if show then [] else [PyStr "/nowindow"]))
      timeout directory None st'.
Proof.
  intros Hobj Hne Hlen st'.
  assert (Hinv : Dymola_invariant (this st')).
  { apply Dymola_object_invariant in Hobj as [H1 _]. split; cbn; eauto. }
  destruct (Dymola__runSimulation_cmd st' directory rest timeout Hinv Hne Hlen)
    as (b & Hb & Hcmd).
  cbn in Hb. injection Hb as <-. exact Hcmd.
Qed.

Lemma replace_go_absent (old new s : string) :
  Str.contains old s = false -> Str.replace_go old new 0 s = s.
Proof.
  induction s as [| a s IH]; [reflexivity |].
  cbn [Str.contains Str.replace_go]. intros H.
  apply orb_false_iff in H as [Hs Hc].
  change (String a s) with (String a s) in Hs. rewrite Hs.
  now rewrite (IH Hc).
Qed.

(** [replace] acts on every occurrence of the directory, not on a prefix
    only: a script outside the directory is passed on as it is, and a
    path in which the directory occurs twice has both occurrences
    replaced. *)
Theorem Dymola_cmd_replaces_everywhere (exe : option string) (show : bool)
    (mosFile directory rest : string) :
  directory <> "" ->
  (Str.contains directory mosFile = false ->
   Dymola_cmd exe show mosFile directory
   = (match exe with Some x => PyStr x | None => PyNone end)
       :: PyStr mosFile :: (if show then [] else [PyStr "/nowindow"]))
  /\ ((String.length rest < String.length directory)%nat ->
      Dymola_cmd exe show (directory +:+ directory +:+ rest) directory
      = (match exe with Some x => PyStr x | None => PyNone end)
          :: PyStr (".." +:+ rest)
          :: (if show then [] else [PyStr "/nowindow"])).
Proof.
  intros Hne. destruct directory as [| a d]; [contradiction |].
  unfold Dymola_cmd, Str.replace. split.
  - intros Habs. rewrite replace_go_absent by exact Habs. now destruct show.
  - intros Hlen.
    change (String a d +:+ String a d +:+ rest)
      with (String a (d +:+ String a d +:+ rest)).
    cbn [Str.replace_go].
    change (String a (d +:+ String a d +:+ rest))
      with (String a d +:+ (String a d +:+ rest)).
    rewrite startswith_app.
    replace (String.length (String a d) - 1)%nat with (String.length d)
      by (simpl; lia).
    rewrite replace_go_skip.
    pose proof (replace_prefix (String a d) rest Hne Hlen) as Hp.
    unfold Str.replace in Hp. rewrite Hp. now destruct show.
Qed.

(** The statements added to the script come out in the order in which
    they were added, after those that were there, the pre-processing ones
    between [openModel] and [modelInstance] and the post-processing ones
    between the model statement and [savelog]; adding statements changes
    nothing else of the script. *)
Theorem statements_in_order (a b c working_directory log_file
    model_name : string) (translate_only ex : bool)
    (pre post : list string) (st : state) :
  _preProcessing_ (this st) = Some pre ->
  _postProcessing_ (this st) = Some post ->
  _exitSimulator (this st) = Some ex ->
  exists st',
    (addPreProcessingStatement a ;; addPostProcessingStatement c ;;
     addPreProcessingStatement b) st = (Ok tt, st')
    /\ _get_dymola_commands E working_directory log_file model_name
         translate_only st'
       = (Ok (script_head working_directory log_file
              +:+ lines (pre ++ [a; b])
              +:+ "modelInstance=" +:+ model_name +:+ ";" +:+ nl
              +:+ (if translate_only
                   then "translateModel(modelInstance);" +:+ nl
                   else script_simulate E (_simulator_ (this st)))
              +:+ lines (post ++ [c])
              +:+ "savelog(" +:+ dq +:+ log_file +:+ dq +:+ ");" +:+ nl
              +:+ (if ex then "Modelica.Utilities.System.exit();" +:+ nl
                   else "")),
          st').
Proof.
  intros Hpre Hpost Hex.
  unfold addPreProcessingStatement, addPostProcessingStatement, getattr,
    bind, gets, ret, set_obj, modify.
  rewrite Hpre. cbn. rewrite Hpost. cbn.
  eexists. split; [reflexivity |].
  rewrite (get_dymola_commands_script working_directory log_file model_name
             translate_only _ ((pre ++ [a]) ++ [b]) (post ++ [c]) ex);
    try reflexivity; try exact Hex.
  cbn. now rewrite <- List.app_assoc.
Qed.

(** ** Further properties of [Optimica] *)

Lemma write_file_Ok (p txt : string) (s s' : state) (u : unit) :
  FS.write_file p txt s = (Ok u, s') ->
  s' = with_fs (<[FS.key s p := File txt]> (fs s)) s.
Proof.
  unfold FS.write_file, bind, get.
  destruct (fs s !! FS.key s p) as [[| c] |];
    destruct (fs s !! FS.parent (FS.key s p)) as [[| c'] |];
    try discriminate; now intros [= _ <-].
Qed.

(** The script of [Optimica.simulate] is written to the working directory
    under the model name with ["_"] for ["."], and the environment handed
    on for the program is [os.environ] as it stands, which [os.putenv]
    does not change: the [MODELICAPATH] that is put (the current directory,
    then the old value when there is one) is not in it. *)
Theorem Optimica_script_environment (worDir file_name : string)
    (env : gmap string string) (st st' : state) :
  Optimica_simulate_script E worDir st = (Ok (file_name, env), st') ->
  file_name
  = posixpath.join worDir
      (Str.replace "." "_" (modelName (this st)) +:+ ".py")
  /\ (exists txt, fs st' !! FS.key st' file_name = Some (File txt))
  /\ env = environ st'
  /\ putenv st' !! "MODELICAPATH"
     = Some (match env !! "MODELICAPATH" with
             | None => cwd st'
             | Some mod_path => cwd st' +:+ ":" +:+ mod_path
             end)
  /\ this st' = this st.
Proof.
  intros H. unfold Optimica_simulate_script in H.
  bind_inv_as H as sim s1 Hsim. injection Hsim as <- <-.
  bind_inv_as H as mn s2 Hmn. injection Hmn as <- <-.
  bind_inv_as H as txt s3 Hr.
  bind_inv_as H as u s4 Hp1.
  bind_inv_as H as u2 s5 Hp2.
  bind_inv_as H as u3 s6 Hw.
  bind_inv_as H as u4 s7 Hp3.
  bind_inv_as H as e s8 He. injection He as <- <-.
  bind_inv_as H as h s9 Hh. injection Hh as <- <-.
  bind_inv_as H as u5 s10 Hm. injection Hm as <- <-.
  injection H as <- <- <-.
  assert (Hthis : this s3 = this st).
  { unfold foreign in Hr. destruct (render E _ st) as [r0 s0].
    injection Hr as _ <-. reflexivity. }
  apply write_file_Ok in Hw. subst s6.
  injection Hp1 as _ <-. injection Hp2 as _ <-. injection Hp3 as _ <-.
  unfold FS.key.
  cbn [fs cwd this environ putenv with_putenv with_stdout with_fs FS.key].
  split; [reflexivity |].
  split; [exists txt; apply lookup_insert_eq |].
  split; [reflexivity |].
  split; [now rewrite lookup_insert_eq | exact Hthis].
Qed.

(** ** The model modifiers of [Dymola] *)


End Properties.

(** * The properties at sample inputs *)

Example split_model_name : Str.split "." "aa.bb.cc" = ["aa"; "bb"; "cc"].
Proof. reflexivity. Qed.

Example setResultFile_aa_bb_cc :
  _simulator_ (this (snd (setResultFile "aa.bb.cc" base_state)))
    !! "resultFile" = Some (PyStr "cc").
Proof. vm_compute. reflexivity. Qed.

Example setResultFile_no_dot :
  _simulator_ (this (snd (setResultFile "model" base_state)))
    !! "resultFile" = Some (PyStr "model").
Proof. vm_compute. reflexivity. Qed.

(** [_BaseSimulator.__init__] does return on the sample state. *)
Lemma base_init_settings_witness :
  _BaseSimulator___init__ as_written "Lib.Sub.M" "out" (Some "Lib")
    (sample_state fresh_obj) = (Ok tt, base_state)
  /\ exists r,
       last (Str.split "." "Lib.Sub.M") = Some r
       /\ Str.contains "." r = false
       /\ ("Lib.Sub.M" = r \/ exists p, "Lib.Sub.M" = p +:+ "." +:+ r)
       /\ _simulator_ (this base_state)
          = <["timeout" := PyInt (-1)]>
              (<["eps" := PyFloat 1e-6]>
                 (<["t1" := PyInt 1]>
                    (<["t0" := PyInt 0]>
                       (<["resultFile" := PyStr r]> ∅)))).
Proof.
  split; [vm_compute; reflexivity |].
  apply (base_init_settings as_written "Lib.Sub.M" "out" (Some "Lib")
           (sample_state fresh_obj) base_state).
  vm_compute. reflexivity.
Defined.

Lemma delete_refused_without_marker_witness :
  Str.contains "tmp-simulator-" (fst (posixpath.split "/home/u/Lib")) = false
  /\ _deleteTemporaryDirectory None base_state = (Ok tt, base_state)
  /\ _deleteTemporaryDirectory (Some "/home/u/Lib") base_state
     = (Ok tt,
        with_errors
          (errors base_state
           ++ ["Failed to delete '" +:+ fst (posixpath.split "/home/u/Lib")
               +:+ "' as it does not seem to be a valid directory name."])
          base_state)
  /\ fs (snd (_deleteTemporaryDirectory (Some "/home/u/Lib") base_state))
     = fs base_state.
Proof.
  split; [reflexivity |].
  apply (delete_refused_without_marker "/home/u/Lib" base_state).
  reflexivity.
Defined.

Lemma check_simulation_errors_iff_witness :
  let E := filled_in (Writes "") in
  let errs := ["Error: singular"; "Error: failed"] in
  get_errors_and_warnings E (posixpath.join "/w" "simulator.log") "dymola"
    log_state = (Ok errs, log_state)
  /\ Dymola__check_simulation_errors E "/w" log_state
     = (Raise (Exn IOError ""),
        with_errors (errors log_state ++ errs) log_state).
Proof.
  split; [vm_compute; reflexivity |].
  apply (check_simulation_errors_iff (filled_in (Writes "")) "/w"
           ["Error: singular"; "Error: failed"] log_state log_state).
  - vm_compute. reflexivity.
  - discriminate.
Defined.


Example run_dir_parent :
  fst (posixpath.split run_dir) = "/tmp/tmp-simulator-u-k3x9".
Proof. reflexivity. Qed.

Lemma dymola_state_is_object : Dymola_object dymola_state.
Proof.
  apply (constructed "Lib.Sub.M" base_state). vm_compute. reflexivity.
Defined.


Example dymola_command :
  Dymola_cmd (Some "dymola") false (posixpath.join run_dir "run.mos") run_dir
  = [PyStr "dymola"; PyStr "./run.mos"; PyStr "/nowindow"].
Proof. vm_compute. reflexivity. Qed.



Example sample_fs_tidy : tidy sample_fs.
Proof. unfold tidy. apply (bool_decide_unpack _). vm_compute. exact I. Qed.


Example copied_entries :
  fs copied_state !! (run_dir +:+ "/package.mo")
    = Some (File "package Lib end Lib;")
  /\ fs copied_state !! (run_dir +:+ "/Sub/M.mo")
     = Some (File "model M end M;").
Proof. vm_compute. split; reflexivity. Qed.


(** ** The command file on an object as the constructor leaves it *)

(** C5 on the object that the statements of [Dymola.__init__] make of a
    base object: no statement assigns [_exitSimulator], and
    [_get_dymola_commands] raises [AttributeError] where the claim has it
    return the script; once [exitSimulator] has been called, the script is
    returned. *)
Theorem get_dymola_commands_after_init (E : externals) :
  _preProcessing_ (this dymola_state) = Some []
  /\ _postProcessing_ (this dymola_state) = Some []
  /\ _exitSimulator (this dymola_state) = None
  /\ _get_dymola_commands E run_dir "simulator.log" sample_mi false
       dymola_state
     = (Raise (Exn AttributeError
                 "'object has no attribute '_exitSimulator'"),
        dymola_state)
  /\ fst (_get_dymola_commands E run_dir "simulator.log" sample_mi true
            dymola_state)
     = Raise (Exn AttributeError "'object has no attribute '_exitSimulator'")
  /\ exists script,
       _get_dymola_commands E run_dir "simulator.log" sample_mi false
         (snd (exitSimulator true dymola_state))
       = (Ok script, snd (exitSimulator true dymola_state)).
Proof.
  assert (H1 : _preProcessing_ (this dymola_state) = Some [])
    by (vm_compute; reflexivity).
  assert (H2 : _postProcessing_ (this dymola_state) = Some [])
    by (vm_compute; reflexivity).
  assert (H3 : _exitSimulator (this dymola_state) = None)
    by (vm_compute; reflexivity).
  split; [exact H1 |]. split; [exact H2 |]. split; [exact H3 |].
  split; [| split].
  - now apply get_dymola_commands_no_exitSimulator with (pre := []) (post := []).
  - now rewrite get_dymola_commands_no_exitSimulator
      with (pre := []) (post := []).
  - eexists.
    apply get_dymola_commands_script with (pre := []) (post := []) (ex := true);
      vm_compute; reflexivity.
Qed.

(** * The further properties at sample inputs *)



Lemma create_worDir_twice_witness :
  let st1 := snd (_create_worDir dymola_state) in
  let st2 := snd (_create_worDir st1) in
  _create_worDir dymola_state = (Ok run_dir, st1)
  /\ _create_worDir st1 = (Ok "/tmp/tmp-simulator-u-q7w2/Lib", st2)
  /\ exists tmp1 tmp2 d,
       run_dir = posixpath.join tmp1 d
       /\ "/tmp/tmp-simulator-u-q7w2/Lib" = posixpath.join tmp2 d
       /\ FS.key dymola_state tmp1 <> FS.key dymola_state tmp2
       /\ fs dymola_state !! FS.key dymola_state tmp1 = None
       /\ fs dymola_state !! FS.key dymola_state tmp2 = None
       /\ fs st2 !! FS.key dymola_state tmp1 = Some Dir
       /\ fs st2 !! FS.key dymola_state tmp2 = Some Dir.
Proof.
  intros st1 st2.
  assert (H1 : _create_worDir dymola_state = (Ok run_dir, st1))
    by (vm_compute; reflexivity).
  assert (H2 : _create_worDir st1 = (Ok "/tmp/tmp-simulator-u-q7w2/Lib", st2))
    by (vm_compute; reflexivity).
  split; [exact H1 |]. split; [exact H2 |].
  exact (create_worDir_twice dymola_state st1 st2 run_dir
           "/tmp/tmp-simulator-u-q7w2/Lib" H1 H2).
Defined.

Lemma delete_skipped_without_worDir_witness :
  let st' := snd (_create_worDir dymola_state) in
  _create_worDir dymola_state = (Ok run_dir, st')
  /\ fs st' !! FS.key st' run_dir = None
  /\ _deleteTemporaryDirectory (Some run_dir) st' = (Ok tt, st')
  /\ fs st' !! "/tmp/tmp-simulator-u-k3x9" = Some Dir.
Proof.
  intros st'.
  assert (H1 : _create_worDir dymola_state = (Ok run_dir, st'))
    by (vm_compute; reflexivity).
  assert (H2 : fs st' !! FS.key st' run_dir = None)
    by (vm_compute; reflexivity).
  split; [exact H1 |]. split; [exact H2 |].
  destruct (delete_skipped_without_worDir dymola_state st' run_dir H1 H2)
    as [H _].
  split; [exact H | vm_compute; reflexivity].
Defined.


Lemma base_init_then_deleteSimulateDirectory_witness :
  _BaseSimulator___init__ as_written "Lib.Sub.M" "out" (Some "Lib")
    (sample_state fresh_obj) = (Ok tt, base_state)
  /\ deleteSimulateDirectory base_state = (Ok tt, base_state).
Proof.
  assert (H : _BaseSimulator___init__ as_written "Lib.Sub.M" "out"
                (Some "Lib") (sample_state fresh_obj) = (Ok tt, base_state))
    by (vm_compute; reflexivity).
  split; [exact H |].
  exact (base_init_then_deleteSimulateDirectory as_written "Lib.Sub.M" "out"
           (Some "Lib") (sample_state fresh_obj) base_state H).
Defined.


Lemma Optimica_simulate_mkdir_copies_nothing_witness :
  let E := filled_in (Writes "ok") in
  let st' := snd (Optimica_simulate_mkdir E optimica_state) in
  Optimica_simulate_mkdir E optimica_state = (Ok run_dir, st')
  /\ is_Some (fs st' !! FS.key optimica_state run_dir)
  /\ _simulateDir_ (this st') = Some run_dir
  /\ (forall k n, fs st' !! k = Some n ->
                  fs optimica_state !! k = Some n \/ n = Dir)
  /\ forall k c, fs st' !! k = Some (File c) ->
                 fs optimica_state !! k = Some (File c).
Proof.
  intros E st'.
  assert (H : Optimica_simulate_mkdir E optimica_state = (Ok run_dir, st'))
    by (vm_compute; reflexivity).
  split; [exact H |].
  exact (Optimica_simulate_mkdir_copies_nothing E optimica_state st' run_dir H).
Defined.

Lemma base_init_checks_package_first_witness :
  let st := sample_state fresh_obj in
  fs st !! FS.key st "nowhere" <> Some Dir
  /\ exists msg,
       _BaseSimulator___init__ as_written "Lib.Sub.M" "out" (Some "nowhere") st
       = (Raise (Exn ValueError msg),
          with_this (set__packagePath None (this st)) st).
Proof.
  intros st.
  assert (H : fs st !! FS.key st "nowhere" <> Some Dir)
    by (vm_compute; discriminate).
  split; [exact H |].
  exact (base_init_checks_package_first as_written "Lib.Sub.M" "out"
           "nowhere" st H).
Defined.


Lemma showGUI_decides_nowindow_witness :
  Dymola_object dymola_state
  /\ Dymola__runSimulation as_written (run_dir +:+ "/run.mos") (PyInt (-1))
       run_dir (snd (showGUI true dymola_state))
     = super__runSimulation as_written
         [PyStr "dymola"; PyStr ("." +:+ "/run.mos")]
         (PyInt (-1)) run_dir None (snd (showGUI true dymola_state)).
Proof.
  split; [exact dymola_state_is_object |].
  apply (showGUI_decides_nowindow as_written dymola_state true run_dir
           "/run.mos" (PyInt (-1)) dymola_state_is_object).
  - discriminate.
  - vm_compute. lia.
Defined.

Lemma Dymola_cmd_replaces_everywhere_witness :
  Dymola_cmd (Some "dymola") false "/elsewhere/run.mos" "/tmp/w"
  = [PyStr "dymola"; PyStr "/elsewhere/run.mos"; PyStr "/nowindow"]
  /\ Dymola_cmd (Some "dymola") false ("/tmp/w" +:+ "/tmp/w" +:+ "/r")
       "/tmp/w"
     = [PyStr "dymola"; PyStr (".." +:+ "/r"); PyStr "/nowindow"].
Proof.
  split.
  - apply (Dymola_cmd_replaces_everywhere (Some "dymola") false
             "/elsewhere/run.mos" "/tmp/w" ""); [discriminate | reflexivity].
  - apply (Dymola_cmd_replaces_everywhere (Some "dymola") false "" "/tmp/w"
             "/r"); [discriminate | vm_compute; lia].
Defined.

Lemma statements_in_order_witness :
  let E := filled_in (Writes "ok") in
  _preProcessing_ (this dymola_ready) = Some []
  /\ _postProcessing_ (this dymola_ready) = Some []
  /\ _exitSimulator (this dymola_ready) = Some true
  /\ exists st',
       (addPreProcessingStatement "a;" ;; addPostProcessingStatement "c;" ;;
        addPreProcessingStatement "b;") dymola_ready = (Ok tt, st')
       /\ _get_dymola_commands E run_dir "simulator.log" sample_mi false st'
          = (Ok (script_head run_dir "simulator.log"
                 +:+ lines ([] ++ ["a;"; "b;"])
                 +:+ "modelInstance=" +:+ sample_mi +:+ ";" +:+ nl
                 +:+ script_simulate E (_simulator_ (this dymola_ready))
                 +:+ lines ([] ++ ["c;"])
                 +:+ "savelog(" +:+ dq +:+ "simulator.log" +:+ dq +:+ ");"
                 +:+ nl
                 +:+ "Modelica.Utilities.System.exit();" +:+ nl),
             st').
Proof.
  intros E.
  assert (H1 : _preProcessing_ (this dymola_ready) = Some [])
    by (vm_compute; reflexivity).
  assert (H2 : _postProcessing_ (this dymola_ready) = Some [])
    by (vm_compute; reflexivity).
  assert (H3 : _exitSimulator (this dymola_ready) = Some true)
    by (vm_compute; reflexivity).
  split; [exact H1 |]. split; [exact H2 |]. split; [exact H3 |].
  exact (statements_in_order E "a;" "b;" "c;" run_dir "simulator.log"
           sample_mi false true [] [] dymola_ready H1 H2 H3).
Defined.

(** ** The two [simulate] methods as the sources stand *)

(** [Dymola.simulate] raises [AttributeError] at once, in every state:
    [Dymola.deleteOutputFiles] calls [super().deleteOutputFiles()], which
    [_BaseSimulator] does not define; nothing has been done by then. *)
Theorem Dymola_simulate_as_written (st : state) :
  Dymola_simulate as_written st
  = (Raise (Exn AttributeError
              "'super' object has no attribute 'deleteOutputFiles'"), st)
  /\ Dymola_deleteOutputFiles as_written st
     = (Raise (Exn AttributeError
                 "'super' object has no attribute 'deleteOutputFiles'"), st).
Proof. split; reflexivity. Qed.

(** [Optimica.simulate], once the working directory and the script are
    made, never starts the program: [super()._runSimulation] is not
    defined, the [AttributeError] is caught, the message is written, and
    the method returns with the temporary directory left in place. *)
Theorem Optimica_simulate_as_written (st s1 s2 : state) (worDir : string)
    (fe : string * gmap string string) :
  Optimica_simulate_mkdir as_written st = (Ok worDir, s1) ->
  Optimica_simulate_script as_written worDir s1 = (Ok fe, s2) ->
  Optimica_simulate as_written st
  = (Ok tt,
     with_errors
       (errors s2
        ++ [simulation_failed worDir
              (Exn AttributeError
                 "'super' object has no attribute '_runSimulation'")])
       s2).
Proof.
  intros H1 H2. unfold Optimica_simulate.
  rewrite (bind_eq_Ok _ _ _ _ _ H1), (bind_eq_Ok _ _ _ _ _ H2).
  reflexivity.
Qed.

Lemma Optimica_simulate_as_written_witness :
  let s1 := snd (Optimica_simulate_mkdir as_written optimica_state) in
  let s2 := snd (Optimica_simulate_script as_written run_dir s1) in
  Optimica_simulate_mkdir as_written optimica_state = (Ok run_dir, s1)
  /\ Optimica_simulate_script as_written run_dir s1
     = (Ok (run_dir +:+ "/Lib_Sub_M.py", ∅), s2)
  /\ Optimica_simulate as_written optimica_state
     = (Ok tt,
        with_errors
          (errors s2
           ++ [simulation_failed run_dir
                 (Exn AttributeError
                    "'super' object has no attribute '_runSimulation'")])
          s2)
  /\ fs s2 !! "/tmp/tmp-simulator-u-k3x9" = Some Dir.
Proof.
  intros s1 s2.
  assert (H1 : Optimica_simulate_mkdir as_written optimica_state
               = (Ok run_dir, s1)) by (vm_compute; reflexivity).
  assert (H2 : Optimica_simulate_script as_written run_dir s1
               = (Ok (run_dir +:+ "/Lib_Sub_M.py", ∅), s2))
    by (vm_compute; reflexivity).
  split; [exact H1 |]. split; [exact H2 |].
  split; [| vm_compute; reflexivity].
  exact (Optimica_simulate_as_written optimica_state s1 s2 run_dir
           (run_dir +:+ "/Lib_Sub_M.py", ∅) H1 H2).
Defined.

Lemma Optimica_script_environment_witness :
  let E := filled_in (Writes "ok") in
  let s1 := snd (Optimica_simulate_mkdir E optimica_state) in
  let s2 := snd (Optimica_simulate_script E run_dir s1) in
  Optimica_simulate_script E run_dir s1
  = (Ok (run_dir +:+ "/Lib_Sub_M.py", ∅), s2)
  /\ (exists txt,
        fs s2 !! FS.key s2 (run_dir +:+ "/Lib_Sub_M.py") = Some (File txt))
  /\ environ s2 !! "MODELICAPATH" = None
  /\ putenv s2 !! "MODELICAPATH" = Some "/home/u".
Proof.
  intros E s1 s2.
  assert (H : Optimica_simulate_script E run_dir s1
              = (Ok (run_dir +:+ "/Lib_Sub_M.py", ∅), s2))
    by (vm_compute; reflexivity).
  split; [exact H |].
  destruct (Optimica_script_environment E run_dir
              (run_dir +:+ "/Lib_Sub_M.py") ∅ s1 s2 H)
    as (_ & Hfile & Henv & Hput & _).
  split; [exact Hfile |].
  split; [now rewrite <- Henv |].
  rewrite Hput. vm_compute. reflexivity.
Defined.

